(** * Tool adapters of vupham90/mcp: dispatch contract

    A shallow embedding of the three adapter processes of the repository
    (the Brave web-search adapter, the GitHub adapter and the GitLab
    adapter) and the proofs of the properties stated about their
    tool-invocation dispatch.

    Layout:
    - [JsNumber], [Js]: the values of the JavaScript runtime the handlers
      compute with (numbers are IEEE binary64, strings are byte strings
      holding UTF-8 text, objects are ordered property lists) and the
      built-in conversions the handlers call ([String], [Number], which
      throw on an object that has no primitive, truthiness, [typeof],
      [JSON.stringify]);
    - [Json]: the grammar of JSON texts, which the texts returned by the
      adapters are compared with;
    - [Buffer], [Encoding]: the base64 and UTF-8 decoder of the runtime,
      and the encoder it is compared with;
    - [Mcp]: requests, results, [McpError] and the effect monad of a
      handler (outbound calls are recorded in a trace, exceptions are
      values);
    - [SearchServer], [GitHubServer], [GitLabServer]: the three request
      handlers and the start-up code, one definition per source function;
    - [Dispatch]: the three adapters behind one interface, with sample
      backing services;
    - [Properties]: the properties of the dispatch contract. *)

From Stdlib Require Import ZArith NArith String Ascii List Bool Lia.
From Stdlib Require Import Floats DecimalString.
From stdpp Require Import gmap strings.
Import ListNotations.

Local Open Scope string_scope.
Local Open Scope list_scope.

(* ===================================================================== *)
(** * Numbers of the runtime *)
(* ===================================================================== *)

(** JavaScript numbers are IEEE 754 binary64 values: the kernel's [float].
    The two conversions between numbers and strings the handlers reach
    ([Number(s)] on a string and the decimal rendering used by [String(n)],
    template literals and [JSON.stringify]) are written out with exact
    integer arithmetic, following ECMA-262 (StringToNumber and
    Number::toString with radix 10). *)
Module JsNumber.

Definition num := float.

(** [ToBoolean] on a number: [+0], [-0] and [NaN] are falsy. *)
Definition truthy (x : num) : bool :=
  negb (PrimFloat.is_nan x || PrimFloat.eqb x 0%float).

(** The double nearest to [(-1)^neg * p / q] (round to nearest, ties to
    even, overflow to infinity). *)
Definition of_ratio (neg : bool) (p q : positive) : num :=
  SF2Prim (SFdiv prec emax (S754_finite neg p 0) (S754_finite false q 0)).

(** The double nearest to [(-1)^neg * m * 10^e]. *)
Definition of_decimal (neg : bool) (m : N) (e : Z) : num :=
  match m with
  | N0 => if neg then (-0)%float else 0%float
  | Npos p =>
      if (0 <=? e)%Z
      then of_ratio neg (p * Z.to_pos (10 ^ e)) 1
      else of_ratio neg p (Z.to_pos (10 ^ (- e)))
  end.

(** ** StringToNumber *)

Definition chars (s : string) : list ascii := list_ascii_of_string s.

Definition utf8 (bs : list nat) : list ascii := map ascii_of_nat bs.

(** StrWhiteSpaceChar: WhiteSpace and LineTerminator code points, as
    UTF-8 byte sequences. *)
Definition white_space : list (list ascii) :=
  [ utf8 [9]; utf8 [10]; utf8 [11]; utf8 [12]; utf8 [13]; utf8 [32];
    utf8 [194; 160];                      (* U+00A0 *)
    utf8 [225; 154; 128];                 (* U+1680 *)
    utf8 [226; 128; 128]; utf8 [226; 128; 129]; utf8 [226; 128; 130];
    utf8 [226; 128; 131]; utf8 [226; 128; 132]; utf8 [226; 128; 133];
    utf8 [226; 128; 134]; utf8 [226; 128; 135]; utf8 [226; 128; 136];
    utf8 [226; 128; 137]; utf8 [226; 128; 138];   (* U+2000 .. U+200A *)
    utf8 [226; 128; 168]; utf8 [226; 128; 169];   (* U+2028, U+2029 *)
    utf8 [226; 128; 175];                 (* U+202F *)
    utf8 [226; 129; 159];                 (* U+205F *)
    utf8 [227; 128; 128];                 (* U+3000 *)
    utf8 [239; 187; 191] ].               (* U+FEFF *)

Fixpoint strip_prefix (p l : list ascii) : option (list ascii) :=
  match p, l with
  | [], _ => Some l
  | a :: p', b :: l' => if Ascii.eqb a b then strip_prefix p' l' else None
  | _ :: _, [] => None
  end.

Fixpoint strip_any (ps : list (list ascii)) (l : list ascii)
  : option (list ascii) :=
  match ps with
  | [] => None
  | p :: ps' =>
      match strip_prefix p l with
      | Some r => Some r
      | None => strip_any ps' l
      end
  end.

Fixpoint trim_left (fuel : nat) (ws : list (list ascii)) (l : list ascii)
  : list ascii :=
  match fuel with
  | O => l
  | S fuel' =>
      match strip_any ws l with
      | Some r => trim_left fuel' ws r
      | None => l
      end
  end.

Definition trim (l : list ascii) : list ascii :=
  let l1 := trim_left (List.length l) white_space l in
  rev (trim_left (List.length l1) (map (@rev ascii) white_space) (rev l1)).

Definition digit_value (base : N) (c : ascii) : option N :=
  let n := N_of_ascii c in
  let v :=
    if (48 <=? n)%N && (n <=? 57)%N then Some (n - 48)%N
    else if (97 <=? n)%N && (n <=? 102)%N then Some (n - 87)%N
    else if (65 <=? n)%N && (n <=? 70)%N then Some (n - 55)%N
    else None in
  match v with
  | Some d => if (d <? base)%N then Some d else None
  | None => None
  end.

(** The longest prefix of digits in [base], as (value, count, rest). *)
Fixpoint digits (base : N) (acc : N) (cnt : nat) (l : list ascii)
  : N * nat * list ascii :=
  match l with
  | c :: l' =>
      match digit_value base c with
      | Some d => digits base (acc * base + d)%N (S cnt) l'
      | None => (acc, cnt, l)
      end
  | [] => (acc, cnt, [])
  end.

Definition is_char (c : ascii) (s : string) : bool :=
  existsb (Ascii.eqb c) (chars s).

(** NonDecimalIntegerLiteral: [0b], [0o], [0x] and at least one digit. *)
Definition non_decimal (l : list ascii) : option num :=
  match l with
  | z :: r :: ds =>
      if Ascii.eqb z "0"%char then
        let base :=
          if is_char r "xX" then Some 16%N
          else if is_char r "oO" then Some 8%N
          else if is_char r "bB" then Some 2%N
          else None in
        match base with
        | Some b =>
            match digits b 0 0 ds with
            | (v, S _, []) => Some (of_decimal false v 0)
            | _ => None
            end
        | None => None
        end
      else None
  | _ => None
  end.

Definition sign (l : list ascii) : bool * list ascii :=
  match l with
  | c :: l' =>
      if Ascii.eqb c "-"%char then (true, l')
      else if Ascii.eqb c "+"%char then (false, l')
      else (false, l)
  | [] => (false, [])
  end.

(** ExponentPart (optional): [e] or [E], an optional sign, digits. *)
Definition exponent (l : list ascii) : option Z :=
  match l with
  | [] => Some 0%Z
  | c :: l' =>
      if is_char c "eE" then
        let '(neg, l'') := sign l' in
        match digits 10 0 0 l'' with
        | (v, S _, []) => Some (if neg then (- Z.of_N v)%Z else Z.of_N v)
        | _ => None
        end
      else None
  end.

(** StrUnsignedDecimalLiteral, with the sign already read. *)
Definition unsigned_decimal (neg : bool) (l : list ascii) : option num :=
  if String.eqb (string_of_list_ascii l) "Infinity"
  then Some (if neg then neg_infinity else infinity)
  else
    let '(ip, icnt, r1) := digits 10 0 0 l in
    let '(m, fcnt, r2) :=
      match r1 with
      | c :: r1' =>
          if Ascii.eqb c "."%char then digits 10 ip 0 r1' else (ip, O, r1)
      | [] => (ip, O, r1)
      end in
    match icnt, fcnt with
    | O, O => None
    | _, _ =>
        match exponent r2 with
        | Some e => Some (of_decimal neg m (e - Z.of_nat fcnt))
        | None => None
        end
    end.

Definition StringToNumber (s : string) : num :=
  let l := trim (chars s) in
  match l with
  | [] => 0%float
  | _ =>
      match non_decimal l with
      | Some x => x
      | None =>
          let '(neg, r) := sign l in
          match unsigned_decimal neg r with
          | Some x => x
          | None => nan
          end
      end
  end.

(** ** Number::toString, radix 10 *)

Definition decimal_of_Z (z : Z) : string :=
  NilZero.string_of_int (Z.to_int z).

Fixpoint zeros (n : nat) : string :=
  match n with
  | O => ""
  | S n' => String "0" (zeros n')
  end.

(** The decimal exponent [n] with [10^(n-1) <= p/q < 10^n]. *)
Fixpoint exponent_down (fuel : nat) (p q : Z) (j : Z) : Z :=
  match fuel with
  | O => j
  | S fuel' =>
      if (q <=? p * 10 ^ j)%Z then j else exponent_down fuel' p q (j + 1)
  end.

Definition decimal_exponent (p q : Z) : Z :=
  if (q <=? p)%Z
  then Z.of_nat (String.length (decimal_of_Z (p / q)))
  else 1 - exponent_down 400 p q 1.

(** [floor] and remainder of [p/q * 10^d]. *)
Definition scaled (p q d : Z) : Z * Z * Z :=
  let '(a, b) :=
    if (0 <=? d)%Z then (p * 10 ^ d, q)%Z else (p, q * 10 ^ (- d))%Z in
  (a / b, a mod b, b)%Z.

(** The [k]-digit candidates for [x = p/q] with decimal exponent [n]:
    the integer [s] nearest to [x * 10^(k-n)] among the two around it
    that read back as [x] (the even one on a tie). *)
Definition candidate (x : num) (p q n : Z) (k : Z) : option Z :=
  let '(lo, r, b) := scaled p q (k - n) in
  let hi := (lo + 1)%Z in
  let back s := PrimFloat.eqb (of_decimal false (Z.to_N s) (n - k)) x in
  let lo_ok := back lo in
  let hi_ok := back hi in
  match lo_ok, hi_ok with
  | true, true =>
      if (2 * r <? b)%Z then Some lo
      else if (b <? 2 * r)%Z then Some hi
      else if Z.even lo then Some lo else Some hi
  | true, false => Some lo
  | false, true => Some hi
  | false, false => None
  end.

Fixpoint shortest (fuel : nat) (x : num) (p q n : Z) (k : Z) : Z * Z :=
  match fuel with
  | O => (0, k)%Z
  | S fuel' =>
      match candidate x p q n k with
      | Some s => (s, k)
      | None => shortest fuel' x p q n (k + 1)
      end
  end.

Definition take (n : nat) (s : string) : string := substring 0 n s.
Definition drop (n : nat) (s : string) : string :=
  substring n (String.length s - n) s.

(** Steps 7 to 11 of Number::toString: [ds] are the [k] digits of [s]. *)
Definition layout (ds : string) (n : Z) : string :=
  let k := Z.of_nat (String.length ds) in
  if (k <=? n)%Z && (n <=? 21)%Z then ds +:+ zeros (Z.to_nat (n - k))
  else if (0 <? n)%Z && (n <=? 21)%Z
  then take (Z.to_nat n) ds +:+ "." +:+ drop (Z.to_nat n) ds
  else if (-6 <? n)%Z && (n <=? 0)%Z
  then "0." +:+ zeros (Z.to_nat (- n)) +:+ ds
  else
    let e := (n - 1)%Z in
    let es := (if (e <? 0)%Z then "-" else "+") +:+ decimal_of_Z (Z.abs e) in
    if (k =? 1)%Z then ds +:+ "e" +:+ es
    else take 1 ds +:+ "." +:+ drop 1 ds +:+ "e" +:+ es.

Definition positive_to_string (x : num) (m : positive) (e : Z) : string :=
  let '(p, q) :=
    if (0 <=? e)%Z then (Zpos m * 2 ^ e, 1)%Z else (Zpos m, 2 ^ (- e))%Z in
  let n := decimal_exponent p q in
  let '(s, k) := shortest 17 x p q n 1 in
  (* a candidate [10^k] is the single digit 1 one decade up *)
  if (s =? 10 ^ k)%Z then layout "1" (n + 1)
  else layout (decimal_of_Z s) n.

Definition NumberToString (x : num) : string :=
  match Prim2SF x with
  | S754_nan => "NaN"
  | S754_zero _ => "0"
  | S754_infinity neg => if neg then "-Infinity" else "Infinity"
  | S754_finite neg m e =>
      (if neg then "-" else "") +:+ positive_to_string (abs x) m e
  end.

End JsNumber.

(* ===================================================================== *)
(** * Values and built-ins of the runtime *)
(* ===================================================================== *)

Module Js.
Import JsNumber.

(** A value as the handlers see it: what [JSON.parse] builds from a
    request or a backing response, and [undefined] for what is absent.
    A string is the UTF-8 encoding of the JavaScript string (which holds
    no lone surrogate); an object is its property list in insertion
    order, keys distinct. *)
#[local] Set Warnings "-register-all".
Inductive JsVal : Type :=
| JUndefined
| JNull
| JBool (b : bool)
| JNum (x : num)
| JStr (s : string)
| JArr (items : list JsVal)
| JObj (props : list (string * JsVal)).
#[local] Set Warnings "register-all".

Definition JsObject := list (string * JsVal).

(** [ToBoolean]. *)
Definition truthy (v : JsVal) : bool :=
  match v with
  | JUndefined | JNull => false
  | JBool b => b
  | JNum x => JsNumber.truthy x
  | JStr s => negb (String.eqb s "")
  | JArr _ | JObj _ => true
  end.

(** The [typeof] operator. *)
Definition typeof (v : JsVal) : string :=
  match v with
  | JUndefined => "undefined"
  | JNull | JArr _ | JObj _ => "object"
  | JBool _ => "boolean"
  | JNum _ => "number"
  | JStr _ => "string"
  end.

(** Property lookup [o.key] on an object: [undefined] when absent. *)
Fixpoint get (key : string) (o : JsObject) : JsVal :=
  match o with
  | [] => JUndefined
  | (k, v) :: o' => if String.eqb k key then v else get key o'
  end.

(** [key in o], for a key that names no property of [Object.prototype]:
    the object has it as an own property. *)
Definition has (key : string) (o : JsObject) : bool :=
  existsb (fun kv => String.eqb (fst kv) key) o.

(** Optional chaining [o?.key] on a value that is an object or absent. *)
Definition get_opt (key : string) (o : option JsObject) : JsVal :=
  match o with
  | Some props => get key props
  | None => JUndefined
  end.

(** [o.key] on a value that is not [undefined] or [null]. The keys the
    adapters read name no property of an array. *)
Definition member (key : string) (v : JsVal) : JsVal :=
  match v with
  | JObj props => get key props
  | _ => JUndefined
  end.

(** [ToString], which is also [String(v)] and the conversion of a
    template-literal substitution; [None] stands for a thrown
    [TypeError]. An array or object is first converted to a primitive
    (OrdinaryToPrimitive): its [toString] is looked up and called, and
    [valueOf], which gives the object back, is of no help. An array is
    joined with commas ([undefined] and [null] elements are empty, the
    others are converted in turn). A plain object inherits
    [Object.prototype.toString] and reads [[object Object]], unless it
    has an own property [toString]: a value built by [JSON.parse] holds
    no function, so that property is not callable, no primitive is found
    and the conversion throws. *)
Fixpoint ToString (v : JsVal) : option string :=
  match v with
  | JUndefined => Some "undefined"
  | JNull => Some "null"
  | JBool b => Some (if b then "true" else "false")
  | JNum x => Some (NumberToString x)
  | JStr s => Some s
  | JArr items =>
      let element x :=
        match x with
        | JUndefined | JNull => Some ""
        | _ => ToString x
        end in
      (fix join (l : list JsVal) : option string :=
         match l with
         | [] => Some ""
         | [x] => element x
         | x :: r =>
             match element x, join r with
             | Some a, Some b => Some (a +:+ "," +:+ b)
             | _, _ => None
             end
         end) items
  | JObj props => if has "toString" props then None else Some "[object Object]"
  end.

(** [ToNumber], which is also [Number(v)]: an array or object goes
    through its primitive, which is its string form; [None] stands for
    the [TypeError] of that conversion. *)
Definition ToNumber (v : JsVal) : option num :=
  match v with
  | JUndefined => Some nan
  | JNull => Some 0%float
  | JBool b => Some (if b then 1%float else 0%float)
  | JNum x => Some x
  | JStr s => Some (StringToNumber s)
  | JArr _ | JObj _ => option_map StringToNumber (ToString v)
  end.

(** [a || b]. *)
Definition or_else (a b : JsVal) : JsVal := if truthy a then a else b.

(** [v + s] and [v += s] with a string on the right: the primitive of
    [v] is the one [ToString] starts from, and the result is the
    concatenation. *)
Definition plus_string (v : JsVal) (s : string) : option JsVal :=
  option_map (fun t => JStr (t +:+ s)) (ToString v).

(** [s.includes(sub)]. *)
Definition includes (sub s : string) : bool :=
  match index 0 sub s with
  | Some _ => true
  | None => false
  end.

(** A destructuring default [{ key = d }]: used when the property is
    [undefined]. *)
Definition with_default (v d : JsVal) : JsVal :=
  match v with
  | JUndefined => d
  | _ => v
  end.

(** ** JSON.stringify(value, null, 2) *)

Definition dquote : ascii := ascii_of_nat 34.
Definition backslash : ascii := ascii_of_nat 92.
Definition newline : string := String (ascii_of_nat 10) "".

Definition hex_digit (n : N) : ascii :=
  if (n <? 10)%N then ascii_of_N (48 + n) else ascii_of_N (87 + n).

(** QuoteJSONString on one byte of the UTF-8 text. *)
Definition quote_char (c : ascii) : string :=
  let n := N_of_ascii c in
  let esc (x : string) := String backslash x in
  if (n =? 8)%N then esc "b"
  else if (n =? 9)%N then esc "t"
  else if (n =? 10)%N then esc "n"
  else if (n =? 12)%N then esc "f"
  else if (n =? 13)%N then esc "r"
  else if (n =? 34)%N then esc (String dquote "")
  else if (n =? 92)%N then esc (String backslash "")
  else if (n <? 32)%N
  then esc ("u00" +:+ String (hex_digit (n / 16)) (String (hex_digit (n mod 16)) ""))
  else String c "".

Fixpoint quote_body (s : string) : string :=
  match s with
  | EmptyString => ""
  | String c s' => quote_char c +:+ quote_body s'
  end.

Definition quote (s : string) : string :=
  String dquote (quote_body s +:+ String dquote "").

Fixpoint join (sep : string) (l : list string) : string :=
  match l with
  | [] => ""
  | [x] => x
  | x :: r => x +:+ sep +:+ join sep r
  end.

Definition is_finite (x : num) : bool :=
  match Prim2SF x with
  | S754_zero _ | S754_finite _ _ _ => true
  | S754_infinity _ | S754_nan => false
  end.

(** SerializeJSONProperty: [None] stands for the result [undefined]
    (the property is left out of an object, and printed as [null] in an
    array). [indent] is the current indentation, [gap] one level. *)
Fixpoint serialize (gap indent : string) (v : JsVal) : option string :=
  match v with
  | JUndefined => None
  | JNull => Some "null"
  | JBool b => Some (if b then "true" else "false")
  | JNum x => Some (if is_finite x then NumberToString x else "null")
  | JStr s => Some (quote s)
  | JArr items =>
      let inner := indent +:+ gap in
      let parts :=
        (fix go (l : list JsVal) : list string :=
           match l with
           | [] => []
           | x :: r =>
               match serialize gap inner x with
               | Some t => t
               | None => "null"
               end :: go r
           end) items in
      match parts with
      | [] => Some "[]"
      | _ =>
          if String.eqb gap ""
          then Some ("[" +:+ join "," parts +:+ "]")
          else Some ("[" +:+ newline +:+ inner
                     +:+ join ("," +:+ newline +:+ inner) parts
                     +:+ newline +:+ indent +:+ "]")
      end
  | JObj props =>
      let inner := indent +:+ gap in
      let colon := if String.eqb gap "" then ":" else ": " in
      let parts :=
        (fix go (l : list (string * JsVal)) : list string :=
           match l with
           | [] => []
           | (k, x) :: r =>
               match serialize gap inner x with
               | Some t => (quote k +:+ colon +:+ t) :: go r
               | None => go r
               end
           end) props in
      match parts with
      | [] => Some "{}"
      | _ =>
          if String.eqb gap ""
          then Some ("{" +:+ join "," parts +:+ "}")
          else Some ("{" +:+ newline +:+ inner
                     +:+ join ("," +:+ newline +:+ inner) parts
                     +:+ newline +:+ indent +:+ "}")
      end
  end.

Fixpoint spaces (n : nat) : string :=
  match n with
  | O => ""
  | S n' => String " " (spaces n')
  end.

(** [JSON.stringify(v, null, space)]: the indentation is [space] blanks,
    at most 10. The result is a string for every array and object; on
    [undefined] the runtime answers [undefined], which no call site of
    the adapters can pass (they serialise an array or an object literal):
    it is rendered as the empty string. *)
Definition JSON_stringify (v : JsVal) (space : nat) : string :=
  match serialize (spaces (Nat.min space 10)) "" v with
  | Some t => t
  | None => ""
  end.

End Js.

(* ===================================================================== *)
(** * JSON texts *)
(* ===================================================================== *)

(** The grammar of RFC 8259, as the relation between a value and the
    texts that denote it. It is what the texts returned by the adapters
    are compared with, and it is stated apart from [JSON.stringify]: a
    text is the value it is read as, whatever its layout. *)
Module Json.
Import Js.

Definition quotation_mark : ascii := "034"%char.
Definition reverse_solidus : ascii := "092"%char.

(** ws: space, horizontal tab, line feed and carriage return. *)
Definition ws_char (c : ascii) : bool :=
  let n := N_of_ascii c in
  (n =? 32)%N || (n =? 9)%N || (n =? 10)%N || (n =? 13)%N.

Fixpoint ws (s : string) : bool :=
  match s with
  | EmptyString => true
  | String c s' => ws_char c && ws s'
  end.

(** unescaped: every byte of the UTF-8 text but the control characters,
    the quotation mark and the reverse solidus. *)
Definition unescaped (c : ascii) : bool :=
  let n := N_of_ascii c in
  (32 <=? n)%N && negb (n =? 34)%N && negb (n =? 92)%N.

(** The character a two-character escape stands for. *)
Definition escape (e : ascii) : option ascii :=
  let n := N_of_ascii e in
  if (n =? 34)%N || (n =? 92)%N || (n =? 47)%N then Some e
  else if (n =? 98)%N then Some (ascii_of_N 8)
  else if (n =? 102)%N then Some (ascii_of_N 12)
  else if (n =? 110)%N then Some (ascii_of_N 10)
  else if (n =? 114)%N then Some (ascii_of_N 13)
  else if (n =? 116)%N then Some (ascii_of_N 9)
  else None.

Definition hex_value (c : ascii) : option N :=
  let n := N_of_ascii c in
  if (48 <=? n)%N && (n <=? 57)%N then Some (n - 48)%N
  else if (97 <=? n)%N && (n <=? 102)%N then Some (n - 87)%N
  else if (65 <=? n)%N && (n <=? 70)%N then Some (n - 55)%N
  else None.

(** The character of a six-character escape, for a code point that is
    one byte of UTF-8. *)
Definition unicode_escape (h1 h2 h3 h4 : ascii) : option ascii :=
  match hex_value h1, hex_value h2, hex_value h3, hex_value h4 with
  | Some a, Some b, Some c, Some d =>
      let n := (((a * 16 + b) * 16 + c) * 16 + d)%N in
      if (n <? 128)%N then Some (ascii_of_N n) else None
  | _, _, _, _ => None
  end.

(** [characters s t]: [t], between quotation marks, denotes the string
    [s]. *)
Inductive characters : string -> string -> Prop :=
| characters_end : characters "" ""
| characters_plain (c : ascii) (s t : string) :
    unescaped c = true -> characters s t ->
    characters (String c s) (String c t)
| characters_escape (c e : ascii) (s t : string) :
    escape e = Some c -> characters s t ->
    characters (String c s) (String reverse_solidus (String e t))
| characters_unicode (c h1 h2 h3 h4 : ascii) (s t : string) :
    unicode_escape h1 h2 h3 h4 = Some c -> characters s t ->
    characters (String c s)
      (String reverse_solidus
         (String "u" (String h1 (String h2 (String h3 (String h4 t)))))).

Definition quoted (body : string) : string :=
  String quotation_mark (body +:+ String quotation_mark "").

(** ** Numbers: [ minus ] int [ frac ] [ exp ] *)

Definition is_digit (c : ascii) : bool :=
  let n := N_of_ascii c in (48 <=? n)%N && (n <=? 57)%N.

(** The longest prefix of digits, and what follows it. *)
Fixpoint span_digits (l : list ascii) : list ascii * list ascii :=
  match l with
  | c :: r =>
      if is_digit c
      then let '(ds, rest) := span_digits r in (c :: ds, rest)
      else ([], l)
  | [] => ([], [])
  end.

Definition decimal_value (ds : list ascii) : N :=
  fold_left (fun acc c => (acc * 10 + (N_of_ascii c - 48))%N) ds 0%N.

Definition minus (l : list ascii) : bool * list ascii :=
  match l with
  | c :: r => if Ascii.eqb c "-" then (true, r) else (false, l)
  | [] => (false, l)
  end.

(** exp, read to the end of the text. *)
Definition exp (l : list ascii) : option Z :=
  match l with
  | [] => Some 0%Z
  | c :: r =>
      if Ascii.eqb c "e" || Ascii.eqb c "E" then
        let '(neg, r') :=
          match r with
          | sg :: r' =>
              if Ascii.eqb sg "-" then (true, r')
              else if Ascii.eqb sg "+" then (false, r')
              else (false, r)
          | [] => (false, r)
          end in
        match span_digits r' with
        | (d :: ds, []) =>
            let v := Z.of_N (decimal_value (d :: ds)) in
            Some (if neg then (- v)%Z else v)
        | _ => None
        end
      else None
  end.

(** The number a text denotes: the double nearest to its decimal value. *)
Definition number (t : string) : option JsNumber.num :=
  let '(neg, l) := minus (list_ascii_of_string t) in
  let '(int, l) := span_digits l in
  let int_ok :=
    match int with
    | [] => false
    | [_] => true
    | c :: _ => negb (Ascii.eqb c "0")
    end in
  let '(frac, l) :=
    match l with
    | c :: r =>
        if Ascii.eqb c "."
        then let '(f, r') := span_digits r in (Some f, r')
        else (None, l)
    | [] => (None, l)
    end in
  let frac_ok := match frac with Some [] => false | _ => true end in
  let fraction := match frac with Some f => f | None => [] end in
  if int_ok && frac_ok then
    match exp l with
    | Some e =>
        Some (JsNumber.of_decimal neg (decimal_value (int ++ fraction))
                (e - Z.of_nat (List.length fraction)))
    | None => None
    end
  else None.

(** ** Values *)

(** [denotes v t]: the text [t], without white space around it, denotes
    the value [v]; [elements] and [members] are what stands between the
    brackets of an array and the braces of an object. The members of an
    object are listed in the order of the text. *)
Inductive denotes : JsVal -> string -> Prop :=
| denotes_null : denotes JNull "null"
| denotes_true : denotes (JBool true) "true"
| denotes_false : denotes (JBool false) "false"
| denotes_number (x : JsNumber.num) (t : string) :
    number t = Some x -> denotes (JNum x) t
| denotes_string (s body : string) :
    characters s body -> denotes (JStr s) (quoted body)
| denotes_array (items : list JsVal) (t : string) :
    elements items t -> denotes (JArr items) ("[" +:+ t +:+ "]")
| denotes_object (props : JsObject) (t : string) :
    members props t -> denotes (JObj props) ("{" +:+ t +:+ "}")
with elements : list JsVal -> string -> Prop :=
| elements_none (w : string) : ws w = true -> elements [] w
| elements_last (x : JsVal) (w1 t w2 : string) :
    ws w1 = true -> denotes x t -> ws w2 = true ->
    elements [x] (w1 +:+ t +:+ w2)
| elements_more (x y : JsVal) (items : list JsVal) (w1 t w2 rest : string) :
    ws w1 = true -> denotes x t -> ws w2 = true ->
    elements (y :: items) rest ->
    elements (x :: y :: items) (w1 +:+ t +:+ w2 +:+ "," +:+ rest)
with members : JsObject -> string -> Prop :=
| members_none (w : string) : ws w = true -> members [] w
| members_last (k : string) (x : JsVal) (w1 body w2 w3 t w4 : string) :
    ws w1 = true -> characters k body -> ws w2 = true ->
    ws w3 = true -> denotes x t -> ws w4 = true ->
    members [(k, x)] (w1 +:+ quoted body +:+ w2 +:+ ":" +:+ w3 +:+ t +:+ w4)
| members_more (k : string) (x : JsVal) (m : string * JsVal) (props : JsObject)
    (w1 body w2 w3 t w4 rest : string) :
    ws w1 = true -> characters k body -> ws w2 = true ->
    ws w3 = true -> denotes x t -> ws w4 = true ->
    members (m :: props) rest ->
    members ((k, x) :: m :: props)
      (w1 +:+ quoted body +:+ w2 +:+ ":" +:+ w3 +:+ t +:+ w4 +:+ "," +:+ rest).

(** A value that a JSON text can denote and that is read back as it was
    written: it holds no [undefined], and each of its numbers is the
    number its decimal rendering denotes (which leaves out NaN, the
    infinities and the negative zero). *)
Fixpoint readable (v : JsVal) : Prop :=
  match v with
  | JUndefined => False
  | JNull | JBool _ | JStr _ => True
  | JNum x => number (JsNumber.NumberToString x) = Some x
  | JArr items =>
      (fix all (l : list JsVal) : Prop :=
         match l with
         | [] => True
         | x :: r => readable x /\ all r
         end) items
  | JObj props =>
      (fix all (l : JsObject) : Prop :=
         match l with
         | [] => True
         | (_, x) :: r => readable x /\ all r
         end) props
  end.

(** A text given by its lines, with a line feed between two of them. *)
Fixpoint lines (l : list string) : string :=
  match l with
  | [] => ""
  | [x] => x
  | x :: r => x +:+ String "010"%char (lines r)
  end.

End Json.

(* ===================================================================== *)
(** * Buffer decoding *)
(* ===================================================================== *)

(** [Buffer.from(s, 'base64').toString('utf-8')] of the Node runtime.
    The decoder walks the UTF-16 code units of the string and looks at
    the low byte of each: it accepts the standard and the URL-safe
    alphabet, skips every other byte and stops at the first [=]; the
    bytes decoded are then read as UTF-8, each ill-formed sequence
    becoming U+FFFD. *)
Module Buffer.

(** The code points of a string of the model, which holds UTF-8: one, two,
    three or four bytes each, by the first byte. *)
Fixpoint code_points (bs : list N) : list N :=
  match bs with
  | [] => []
  | b :: r =>
      if (b <? 192)%N then b :: code_points r
      else if (b <? 224)%N then
        match r with
        | b2 :: r2 => ((b mod 32) * 64 + b2 mod 64)%N :: code_points r2
        | [] => []
        end
      else if (b <? 240)%N then
        match r with
        | b2 :: b3 :: r3 =>
            ((b mod 16) * 4096 + (b2 mod 64) * 64 + b3 mod 64)%N
            :: code_points r3
        | _ => []
        end
      else
        match r with
        | b2 :: b3 :: b4 :: r4 =>
            ((b mod 8) * 262144 + (b2 mod 64) * 4096 + (b3 mod 64) * 64
             + b4 mod 64)%N
            :: code_points r4
        | _ => []
        end
  end.

(** The UTF-16 code units of a code point: itself, or a surrogate pair. *)
Definition code_units (cp : N) : list N :=
  if (cp <? 65536)%N then [cp]
  else [55296 + (cp - 65536) / 1024; 56320 + (cp - 65536) mod 1024]%N.

(** The bytes a string of the model holds. *)
Definition bytes_of_string (s : string) : list N :=
  map N_of_ascii (list_ascii_of_string s).

(** What the decoder sees of a string: the low byte of each code unit. *)
Definition low_bytes (s : string) : list N :=
  map (fun u => (u mod 256)%N)
      (flat_map code_units (code_points (bytes_of_string s))).

(** The 6-bit value of a byte of either alphabet. *)
Definition unbase64 (n : N) : option N :=
  if (65 <=? n)%N && (n <=? 90)%N then Some (n - 65)%N
  else if (97 <=? n)%N && (n <=? 122)%N then Some (n - 71)%N
  else if (48 <=? n)%N && (n <=? 57)%N then Some (n + 4)%N
  else if (n =? 43)%N || (n =? 45)%N then Some 62%N
  else if (n =? 47)%N || (n =? 95)%N then Some 63%N
  else None.

(** The 6-bit values of the bytes read, up to the first [=]. *)
Fixpoint sextets (l : list N) : list N :=
  match l with
  | [] => []
  | b :: l' =>
      if (b =? 61)%N then []
      else
        match unbase64 b with
        | Some v => v :: sextets l'
        | None => sextets l'
        end
  end.

Definition byte1 (a b : N) : N :=
  N.lor (N.shiftl (N.land a 63) 2) (N.shiftr (N.land b 48) 4).
Definition byte2 (b c : N) : N :=
  N.lor (N.shiftl (N.land b 15) 4) (N.shiftr (N.land c 60) 2).
Definition byte3 (c d : N) : N :=
  N.lor (N.shiftl (N.land c 3) 6) (N.land d 63).

(** Four characters give three bytes; a last group of three gives two, of
    two gives one, and a single left-over character gives none. *)
Fixpoint bytes_of_sextets (l : list N) : list N :=
  match l with
  | a :: b :: c :: d :: r =>
      byte1 a b :: byte2 b c :: byte3 c d :: bytes_of_sextets r
  | [a; b; c] => [byte1 a b; byte2 b c]
  | [a; b] => [byte1 a b]
  | _ => []
  end.

(** [Buffer.from(s, 'base64')]. *)
Definition from_base64 (s : string) : list N :=
  bytes_of_sextets (sextets (low_bytes s)).

(** The UTF-8 decoder's state between two bytes: the bytes of the
    sequence read so far (most recent first), how many are still needed,
    and the range the next one must lie in. *)
Record Utf8State : Type := mkUtf8State {
  pending : list N;
  needed : nat;
  lower : N;
  upper : N
}.

Definition utf8_idle : Utf8State := mkUtf8State [] 0 128 191.

Definition replacement : list N := [239; 191; 189]%N.

(** A byte read with no sequence open. *)
Definition utf8_lead (b : N) : list N * Utf8State :=
  if (b <=? 127)%N then ([b], utf8_idle)
  else if (194 <=? b)%N && (b <=? 223)%N then ([], mkUtf8State [b] 1 128 191)
  else if (b =? 224)%N then ([], mkUtf8State [b] 2 160 191)
  else if (b =? 237)%N then ([], mkUtf8State [b] 2 128 159)
  else if (225 <=? b)%N && (b <=? 239)%N then ([], mkUtf8State [b] 2 128 191)
  else if (b =? 240)%N then ([], mkUtf8State [b] 3 144 191)
  else if (b =? 244)%N then ([], mkUtf8State [b] 3 128 143)
  else if (241 <=? b)%N && (b <=? 243)%N then ([], mkUtf8State [b] 3 128 191)
  else (replacement, utf8_idle).

Definition utf8_step (st : Utf8State) (b : N) : list N * Utf8State :=
  match needed st with
  | O => utf8_lead b
  | S n =>
      if (lower st <=? b)%N && (b <=? upper st)%N then
        match n with
        | O => (rev (b :: pending st), utf8_idle)
        | S _ => ([], mkUtf8State (b :: pending st) n 128 191)
        end
      else
        (* the open sequence is ill-formed; the byte is read again *)
        let '(out, st') := utf8_lead b in (replacement ++ out, st')
  end.

Fixpoint utf8_run (st : Utf8State) (bs : list N) : list N :=
  match bs with
  | [] => match needed st with O => [] | S _ => replacement end
  | b :: bs' => let '(out, st') := utf8_step st b in out ++ utf8_run st' bs'
  end.

Definition string_of_bytes (bs : list N) : string :=
  string_of_list_ascii (map ascii_of_N bs).

(** [buf.toString('utf-8')]. *)
Definition toString_utf8 (bs : list N) : string :=
  string_of_bytes (utf8_run utf8_idle bs).

End Buffer.

(* ===================================================================== *)
(** * Encoded file contents, as the code host produces them *)
(* ===================================================================== *)

(** The encoder side of [read_file]: the backing service sends the bytes
    of a file in base64, and a text file holds UTF-8. These definitions
    follow RFC 4648 and the Unicode standard; they are what the decoder
    of the adapter is compared with. *)
Module Encoding.

(** The character of a 6-bit value in the standard alphabet. *)
Definition base64_char (v : N) : ascii :=
  ascii_of_N
    (if (v <? 26)%N then 65 + v
     else if (v <? 52)%N then 71 + v
     else if (v <? 62)%N then v - 4
     else if (v =? 62)%N then 43
     else 47)%N.

Definition pad : ascii := "="%char.

(** Three bytes give four characters; the last group is padded. *)
Fixpoint to_base64 (bs : list N) : string :=
  match bs with
  | a :: b :: c :: r =>
      String (base64_char (a / 4))
        (String (base64_char ((a mod 4) * 16 + b / 16))
           (String (base64_char ((b mod 16) * 4 + c / 64))
              (String (base64_char (c mod 64)) (to_base64 r))))%N
  | [a; b] =>
      String (base64_char (a / 4))
        (String (base64_char ((a mod 4) * 16 + b / 16))
           (String (base64_char ((b mod 16) * 4)) (String pad EmptyString)))%N
  | [a] =>
      String (base64_char (a / 4))
        (String (base64_char ((a mod 4) * 16))
           (String pad (String pad EmptyString)))%N
  | [] => EmptyString
  end.

(** A Unicode scalar value: a code point that is no surrogate. *)
Definition scalar_value (cp : N) : bool :=
  (cp <? 55296)%N || ((57344 <=? cp)%N && (cp <? 1114112)%N).

(** The UTF-8 encoding of a scalar value. *)
Definition utf8_encode (cp : N) : list N :=
  if (cp <? 128)%N then [cp]
  else if (cp <? 2048)%N then [192 + cp / 64; 128 + cp mod 64]%N
  else if (cp <? 65536)%N
  then [224 + cp / 4096; 128 + (cp / 64) mod 64; 128 + cp mod 64]%N
  else [240 + cp / 262144; 128 + (cp / 4096) mod 64;
        128 + (cp / 64) mod 64; 128 + cp mod 64]%N.

(** The bytes of a text, given as its scalar values. *)
Definition utf8_text (cps : list N) : list N := flat_map utf8_encode cps.

Definition byte (b : N) : Prop := (b < 256)%N.

Definition scalar_values (cps : list N) : Prop :=
  Forall (fun cp => scalar_value cp = true) cps.

Definition line_feed : ascii := ascii_of_nat 10.

(** [broken s s']: [s'] is [s] with line feeds inserted, as the code host
    wraps the encoded content. *)
Inductive broken : string -> string -> Prop :=
| broken_end : broken EmptyString EmptyString
| broken_char (c : ascii) (s s' : string) :
    broken s s' -> broken (String c s) (String c s')
| broken_feed (s s' : string) :
    broken s s' -> broken s (String line_feed s').

(** [P] holds of every number below [n]. *)
Fixpoint below (n : nat) (P : N -> bool) : bool :=
  match n with
  | O => true
  | S k => P (N.of_nat k) && below k P
  end.

End Encoding.

(* ===================================================================== *)
(** * The protocol layer shared by the adapters *)
(* ===================================================================== *)

Module Mcp.
Import Js.

(** The error codes the adapters raise. *)
Inductive ErrorCode : Type :=
| MethodNotFound
| InvalidParams
| InternalError.

Definition code_number (c : ErrorCode) : string :=
  match c with
  | MethodNotFound => "-32601"
  | InvalidParams => "-32602"
  | InternalError => "-32603"
  end.

(** What a [throw] carries. [McpError] holds the code and the message it
    was built with; [AxiosError] holds [error.response?.status]; [Error]
    is any other instance of [Error] (a [TypeError], a request error of a
    client library); [NonError] is a thrown value that is no [Error]. *)
Inductive Thrown : Type :=
| McpError (code : ErrorCode) (message : string)
| AxiosError (message : string) (status : option Z)
| Error (message : string)
| NonError (v : JsVal).

(** [error instanceof McpError]. *)
Definition is_McpError (e : Thrown) : bool :=
  match e with
  | McpError _ _ => true
  | _ => false
  end.

(** [error instanceof Error ? error.message : undefined]. The message of
    an [McpError] is the one its constructor builds from code and text. *)
Definition Error_message (e : Thrown) : option string :=
  match e with
  | McpError c m => Some ("MCP error " +:+ code_number c +:+ ": " +:+ m)
  | AxiosError m _ => Some m
  | Error m => Some m
  | NonError _ => None
  end.

(** [error instanceof Error ? error.message : 'Unknown error']. *)
Definition message_or_unknown (e : Thrown) : string :=
  match Error_message e with
  | Some m => m
  | None => "Unknown error"
  end.

(** [axios.isAxiosError(error) && error.response?.status === 401]. *)
Definition is_axios_401 (e : Thrown) : bool :=
  match e with
  | AxiosError _ (Some st) => (st =? 401)%Z
  | _ => false
  end.

(** The request of a tool call: [request.params.name] and
    [request.params.arguments], which the protocol layer has already
    checked to be a record or absent. *)
Record CallToolRequest : Type := mkRequest {
  name : string;
  arguments : option JsObject
}.

Record ContentItem : Type := mkContent {
  type : string;
  text : string
}.

Record CallToolResult : Type := mkResult {
  content : list ContentItem
}.

(** [{ content: [{ type: 'text', text: t }] }]. *)
Definition text_result (t : string) : CallToolResult :=
  mkResult [mkContent "text" t].

(** ** Outbound calls and the backing services *)

(** One outbound call, with the arguments it was issued with. *)
Inductive Call : Type :=
| AxiosGet (url : string) (headers : JsObject) (params : JsObject)
| ReposGetContent (owner repo path ref : JsVal)
| SearchCode (q : JsVal) (per_page : JsVal)
| MergeRequestsShow (project_id merge_request_iid : JsVal)
| MergeRequestsAllDiffs (project_id merge_request_iid : JsVal).

(** [BraveSearchResult] and [BraveSearchResponse] of the search adapter. *)
Record BraveSearchResult : Type := mkBraveResult {
  title : string;
  url : string;
  description : string
}.

Record BraveWeb : Type := mkBraveWeb {
  results : option (list BraveSearchResult)
}.

Record BraveSearchResponse : Type := mkBraveResponse {
  web : option BraveWeb
}.

(** [response.data] of [repos.getContent]: a directory listing (an array
    of entries) or a single payload (a file, a symlink or a submodule). *)
Inductive RepoContent : Type :=
| Directory (entries : list JsObject)
| Single (payload : JsObject).

(** One item of [response.data.items] of [search.code]. *)
Record CodeSearchItem : Type := mkCodeItem {
  repository : JsObject;
  item_path : JsVal;
  html_url : JsVal
}.

(** A backing call answers or throws. *)
Definition Answer (A : Type) : Type := (Thrown + A)%type.

(** The backing services, as the answers they give to each call. *)
Record World : Type := mkWorld {
  axios_get : string -> JsObject -> JsObject -> Answer BraveSearchResponse;
  repos_getContent : JsVal -> JsVal -> JsVal -> JsVal -> Answer RepoContent;
  search_code : JsVal -> JsVal -> Answer (list CodeSearchItem);
  MergeRequests_show : JsVal -> JsVal -> Answer JsObject;
  MergeRequests_allDiffs : JsVal -> JsVal -> Answer (list JsObject)
}.

(** ** The effect of a handler *)

(** A handler returns or throws. *)
Inductive Outcome (A : Type) : Type :=
| Returned (a : A)
| Threw (e : Thrown).
Arguments Returned {A} a.
Arguments Threw {A} e.

(** A computation: the outbound calls it issued, in order, and how it
    ended. *)
Definition M (A : Type) : Type := (list Call * Outcome A)%type.

Definition ret {A} (a : A) : M A := ([], Returned a).

Definition throw {A} (e : Thrown) : M A := ([], Threw e).

Definition bind {A B} (m : M A) (f : A -> M B) : M B :=
  match m with
  | (t, Returned a) => let '(t', r) := f a in (t ++ t', r)
  | (t, Threw e) => (t, Threw e)
  end.

(** [try { m } catch (error) { h error }]. *)
Definition try_catch {A} (m : M A) (h : Thrown -> M A) : M A :=
  match m with
  | (t, Threw e) => let '(t', r) := h e in (t ++ t', r)
  | (t, Returned a) => (t, Returned a)
  end.

(** [await] of one outbound call. *)
Definition perform {A} (c : Call) (answer : Answer A) : M A :=
  ([c],
   match answer with
   | inl e => Threw e
   | inr a => Returned a
   end).

(** The [TypeError] of a conversion to a primitive, in V8's wording. *)
Definition TypeError_primitive : Thrown :=
  Error "Cannot convert object to primitive value".

(** A conversion of the runtime, which gives its result or throws. *)
Definition convert {A} (r : option A) : M A :=
  match r with
  | Some a => ret a
  | None => throw TypeError_primitive
  end.

Definition calls {A} (m : M A) : list Call := fst m.
Definition outcome {A} (m : M A) : Outcome A := snd m.

Declare Scope mcp_scope.
Delimit Scope mcp_scope with mcp.
Notation "'let!' x ':=' m 'in' k" := (bind m (fun x => k))
  (at level 10, x name, m at level 100, k at level 200) : mcp_scope.

(** ** Tool descriptors *)

Record Property : Type := mkProperty {
  prop_type : string;
  prop_description : string;
  minimum : option JsNumber.num;
  maximum : option JsNumber.num;
  default : option JsVal
}.

Record InputSchema : Type := mkSchema {
  properties : list (string * Property);
  required : list string
}.

Record Tool : Type := mkTool {
  tool_name : string;
  tool_description : string;
  inputSchema : InputSchema
}.

Definition plain (ty descr : string) : Property :=
  mkProperty ty descr None None None.

Definition with_default_value (ty descr : string) (d : JsVal) : Property :=
  mkProperty ty descr None None (Some d).

(** ** Start-up *)

(** What the process does when it starts, in order: an uncaught exception
    at load time ends it with status 1; [ChannelOpen] is
    [server.connect(transport)]; [Stderr] is a line on the error stream. *)
Inductive BootEvent : Type :=
| Fatal (message : string)
| ChannelOpen
| Stderr (line : string).

(** [!process.env.X]: the variable is unset or empty. *)
Definition env_missing (v : option string) : bool :=
  match v with
  | Some s => String.eqb s ""
  | None => true
  end.

End Mcp.

(* ===================================================================== *)
(** * The web-search adapter *)
(* ===================================================================== *)

Module SearchServer.
Import Js Mcp.
Local Open Scope mcp_scope.

Definition BRAVE_SEARCH_URL : string :=
  "https://api.search.brave.com/res/v1/web/search".

(** The answer of the [ListToolsRequestSchema] handler. *)
Definition tools : list Tool :=
  [ mkTool "search" "Search the internet using Brave Search"
      (mkSchema
         [ ("query", plain "string" "The search query");
           ("count",
            mkProperty "number" "Number of results to return (1-20)"
              (Some 1%float) (Some 20%float) (Some (JNum 5%float))) ]
         [ "query" ]) ].

(** [response.data.web?.results?.length]: [None] is [undefined]. *)
Definition results_length (data : BraveSearchResponse) : option nat :=
  match web data with
  | Some w =>
      match results w with
      | Some l => Some (List.length l)
      | None => None
      end
  | None => None
  end.

(** [response.data.web.results], read where the length is known to be
    positive. *)
Definition web_results (data : BraveSearchResponse) : list BraveSearchResult :=
  match web data with
  | Some w =>
      match results w with
      | Some l => l
      | None => []
      end
  | None => []
  end.

(** The callback of [results.map]. *)
Definition reshape (result : BraveSearchResult) : JsVal :=
  JObj [ ("title", JStr (title result));
         ("url", JStr (url result));
         ("description", JStr (description result)) ].

Definition auth_hint : string :=
  "Search failed: Please visit https://api.search.brave.com to get started with Brave Search API".

(** The [try] block of the handler. *)
Definition guarded (API_KEY : string) (w : World) (query : string) (count : JsVal)
  : M CallToolResult :=
  let headers := [ ("X-Subscription-Token", JStr API_KEY) ] in
  let params :=
    [ ("q", JStr query);
      ("count", count);
      ("text_decorations", JBool false);
      ("text_format", JStr "plain") ] in
  let! response :=
    perform (AxiosGet BRAVE_SEARCH_URL headers params)
            (axios_get w BRAVE_SEARCH_URL headers params) in
  match results_length response with
  | None | Some O => ret (text_result "No results found.")
  | Some (S _) =>
      let results := map reshape (web_results response) in
      ret (text_result (JSON_stringify (JArr results) 2))
  end.

(** Its [catch] block. *)
Definition on_error (error : Thrown) : M CallToolResult :=
  if is_axios_401 error
  then throw (McpError InternalError auth_hint)
  else throw (McpError InternalError
                ("Search failed: " +:+ message_or_unknown error)).

(** [String(request.params.arguments?.query)] and
    [Number(request.params.arguments?.count) || 5]; [None] when the
    conversion throws. *)
Definition query_of (request : CallToolRequest) : option string :=
  ToString (get_opt "query" (arguments request)).

Definition count_of (request : CallToolRequest) : option JsVal :=
  option_map (fun x => or_else (JNum x) (JNum 5%float))
    (ToNumber (get_opt "count" (arguments request))).

(** The [CallToolRequestSchema] handler. [API_KEY] is the module-level
    constant read from the environment at start-up. The two conversions
    stand before the [try] block: what they throw leaves the handler as
    it is. Lines written to the error stream are left out. *)
Definition CallTool (API_KEY : string) (w : World) (request : CallToolRequest)
  : M CallToolResult :=
  if negb (String.eqb (name request) "search")
  then throw (McpError MethodNotFound "Unknown tool")
  else
    let! query := convert (query_of request) in
    let! count := convert (count_of request) in
    if negb (truthy (JStr query))
    then throw (McpError InvalidParams "Search query is required")
    else try_catch (guarded API_KEY w query count) on_error.

(** The module's top level and [main]: the key is read and checked
    before the server is built and connected. *)
Definition boot (env : gmap string string) : list BootEvent :=
  if env_missing (env !! "BRAVE_API_KEY")
  then [ Fatal "BRAVE_API_KEY environment variable is required" ]
  else [ ChannelOpen; Stderr "Search MCP server running on stdio" ].

Definition API_KEY (env : gmap string string) : string :=
  match env !! "BRAVE_API_KEY" with
  | Some k => k
  | None => ""
  end.

End SearchServer.

(* ===================================================================== *)
(** * The GitHub adapter *)
(* ===================================================================== *)

Module GitHubServer.
Import Js Mcp.
Local Open Scope mcp_scope.

Definition tools : list Tool :=
  [ mkTool "read_file" "Read a file from a GitHub repository"
      (mkSchema
         [ ("owner", plain "string" "Repository owner");
           ("repo", plain "string" "Repository name");
           ("path", plain "string" "File path in the repository");
           ("ref",
            with_default_value "string"
              "Git reference (branch, tag, or commit SHA)" (JStr "main")) ]
         [ "owner"; "repo"; "path" ]);
    mkTool "search_code" "Search for code across GitHub repositories"
      (mkSchema
         [ ("query", plain "string" "Search query");
           ("language", plain "string" "Programming language to filter by");
           ("owner", plain "string" "Repository owner to limit search to");
           ("repo", plain "string" "Repository name to limit search to") ]
         [ "query" ]);
    mkTool "list_repository_content" "List contents of a repository directory"
      (mkSchema
         [ ("owner", plain "string" "Repository owner");
           ("repo", plain "string" "Repository name");
           ("path",
            with_default_value "string" "Directory path in the repository"
              (JStr ""));
           ("ref",
            with_default_value "string"
              "Git reference (branch, tag, or commit SHA)" (JStr "main")) ]
         [ "owner"; "repo" ]) ].

(** The [TypeError] of destructuring [undefined], in V8's wording. *)
Definition destructure_undefined (property source : string) : Thrown :=
  Error ("Cannot destructure property '" +:+ property +:+ "' of '"
         +:+ source +:+ "' as it is undefined.").

(** [const { ... } = args] for the argument bag, cast but not checked. *)
Definition destructure {A} (first : string) (args : option JsObject)
    (k : JsObject -> M A) : M A :=
  match args with
  | Some o => k o
  | None => throw (destructure_undefined first "args")
  end.

(** ['content' in response.data && typeof response.data.content ===
    'string'], with the string: an array has no property [content]. *)
Definition string_content (data : RepoContent) : option string :=
  match data with
  | Single payload =>
      if has "content" payload then
        match get "content" payload with
        | JStr s => Some s
        | _ => None
        end
      else None
  | Directory _ => None
  end.

Definition read_file (w : World) (request : CallToolRequest) : M CallToolResult :=
  destructure "owner" (arguments request) (fun args =>
    let owner := get "owner" args in
    let repo := get "repo" args in
    let path := get "path" args in
    let ref := with_default (get "ref" args) (JStr "main") in
    let! response :=
      perform (ReposGetContent owner repo path ref)
              (repos_getContent w owner repo path ref) in
    match string_content response with
    | Some encoded =>
        let content := Buffer.toString_utf8 (Buffer.from_base64 encoded) in
        ret (text_result content)
    | None =>
        throw (McpError InternalError "Invalid response format from GitHub API")
    end).

(** The template literals of [search_code], with one substitution and
    with two; [None] when a substitution cannot be converted. *)
Definition template1 (prefix : string) (v : JsVal) : option string :=
  option_map (fun t => prefix +:+ t) (ToString v).

Definition template2 (prefix : string) (v : JsVal) (infix : string) (v' : JsVal)
  : option string :=
  match ToString v, ToString v' with
  | Some t, Some t' => Some (prefix +:+ t +:+ infix +:+ t')
  | _, _ => None
  end.

(** [q += t], where evaluating [t] or converting [q] may have thrown. *)
Definition plus_assign (q : option JsVal) (t : option string) : option JsVal :=
  match t, q with
  | Some t, Some q => plus_string q t
  | _, _ => None
  end.

(** The query string of [search_code]; [None] when building it throws. *)
Definition build_query (query language owner repo : JsVal) : option JsVal :=
  let q := Some query in
  let q :=
    if truthy language
    then plus_assign q (template1 " language:" language)
    else q in
  if truthy owner && truthy repo
  then plus_assign q (template2 " repo:" owner "/" repo)
  else if truthy owner
  then plus_assign q (template1 " user:" owner)
  else q.

Definition code_match (item : CodeSearchItem) : JsVal :=
  JObj [ ("repository", get "full_name" (repository item));
         ("path", item_path item);
         ("url", html_url item) ].

Definition search_code_tool (w : World) (request : CallToolRequest)
  : M CallToolResult :=
  destructure "query" (arguments request) (fun args =>
    let query := get "query" args in
    let language := get "language" args in
    let owner := get "owner" args in
    let repo := get "repo" args in
    let! q := convert (build_query query language owner repo) in
    let! items :=
      perform (SearchCode q (JNum 10%float))
              (search_code w q (JNum 10%float)) in
    ret (text_result (JSON_stringify (JArr (map code_match items)) 2))).

Definition entry (item : JsObject) : JsVal :=
  JObj [ ("name", get "name" item);
         ("type", get "type" item);
         ("path", get "path" item);
         ("size", get "size" item) ].

Definition list_repository_content (w : World) (request : CallToolRequest)
  : M CallToolResult :=
  destructure "owner" (arguments request) (fun args =>
    let owner := get "owner" args in
    let repo := get "repo" args in
    let path := with_default (get "path" args) (JStr "") in
    let ref := with_default (get "ref" args) (JStr "main") in
    let! response :=
      perform (ReposGetContent owner repo path ref)
              (repos_getContent w owner repo path ref) in
    match response with
    | Directory entries =>
        ret (text_result (JSON_stringify (JArr (map entry entries)) 2))
    | Single _ => throw (McpError InternalError "Expected directory listing")
    end).

(** The [switch] inside the [try] block. *)
Definition guarded (w : World) (request : CallToolRequest) : M CallToolResult :=
  if String.eqb (name request) "read_file" then read_file w request
  else if String.eqb (name request) "search_code"
  then search_code_tool w request
  else if String.eqb (name request) "list_repository_content"
  then list_repository_content w request
  else throw (McpError MethodNotFound ("Unknown tool: " +:+ name request)).

(** The [catch] block. *)
Definition on_error (error : Thrown) : M CallToolResult :=
  if is_McpError error then throw error
  else throw (McpError InternalError
                ("GitHub API error: " +:+ message_or_unknown error)).

(** The [CallToolRequestSchema] handler. *)
Definition CallTool (w : World) (request : CallToolRequest) : M CallToolResult :=
  try_catch (guarded w request) on_error.

(** The constructor and [run]: the client is built without
    authentication and nothing is read from the environment. *)
Definition boot (env : gmap string string) : list BootEvent :=
  [ ChannelOpen; Stderr "GitHub MCP server running on stdio" ].

End GitHubServer.

(* ===================================================================== *)
(** * The GitLab adapter *)
(* ===================================================================== *)

Module GitLabServer.
Import Js Mcp.
Local Open Scope mcp_scope.

Definition tools : list Tool :=
  [ mkTool "get_merge_request_content"
      "Get the content of a merge request including its changes"
      (mkSchema
         [ ("project_id",
            plain "string" "The ID or URL-encoded path of the project");
           ("merge_request_iid",
            plain "number" "The internal ID of the merge request") ]
         [ "project_id"; "merge_request_iid" ]) ].

Definition validateGetMergeRequestContentArgs (args : JsVal) : M unit :=
  if negb (String.eqb (typeof args) "object")
     || match args with JNull => true | _ => false end
  then throw (McpError InvalidParams "Invalid arguments")
  else
    let project_id := member "project_id" args in
    let merge_request_iid := member "merge_request_iid" args in
    if negb (String.eqb (typeof project_id) "string")
    then throw (McpError InvalidParams "project_id must be a string")
    else if negb (String.eqb (typeof merge_request_iid) "number")
    then throw (McpError InvalidParams "merge_request_iid must be a number")
    else ret tt.

Definition change (diff : JsObject) : JsVal :=
  JObj [ ("old_path", get "old_path" diff);
         ("new_path", get "new_path" diff);
         ("diff", get "diff" diff) ].

Definition merge_request_content (mr : JsObject) (diffs : list JsObject) : JsVal :=
  JObj [ ("id", get "id" mr);
         ("iid", get "iid" mr);
         ("title", get "title" mr);
         ("description", get "description" mr);
         ("state", get "state" mr);
         ("source_branch", get "source_branch" mr);
         ("target_branch", get "target_branch" mr);
         ("changes", JArr (map change diffs)) ].

(** The [try] block of the handler, entered with the argument bag. *)
Definition guarded (w : World) (request : CallToolRequest) (args : JsObject)
  : M CallToolResult :=
  if String.eqb (name request) "get_merge_request_content" then
    let! _ := validateGetMergeRequestContentArgs (JObj args) in
    let project_id := get "project_id" args in
    let merge_request_iid := get "merge_request_iid" args in
    let! mr :=
      perform (MergeRequestsShow project_id merge_request_iid)
              (MergeRequests_show w project_id merge_request_iid) in
    let! diffs :=
      perform (MergeRequestsAllDiffs project_id merge_request_iid)
              (MergeRequests_allDiffs w project_id merge_request_iid) in
    let content := merge_request_content mr diffs in
    ret (text_result (JSON_stringify content 2))
  else throw (McpError MethodNotFound ("Unknown tool: " +:+ name request)).

(** The [catch] block. *)
Definition on_error (error : Thrown) : M CallToolResult :=
  if is_McpError error then throw error
  else
    let errorMessage := message_or_unknown error in
    throw (McpError InternalError ("GitLab API error: " +:+ errorMessage)).

(** The [CallToolRequestSchema] handler. *)
Definition CallTool (w : World) (request : CallToolRequest) : M CallToolResult :=
  match arguments request with
  | None => throw (McpError InvalidParams "No arguments provided")
  | Some args => try_catch (guarded w request args) on_error
  end.

Definition GITLAB_URL (env : gmap string string) : string :=
  match env !! "GITLAB_URL" with
  | Some u => if String.eqb u "" then "https://gitlab.com" else u
  | None => "https://gitlab.com"
  end.

(** The module's top level, the constructor and [run]. *)
Definition boot (env : gmap string string) : list BootEvent :=
  if env_missing (env !! "GITLAB_TOKEN")
  then [ Fatal "GITLAB_TOKEN environment variable is required" ]
  else [ ChannelOpen; Stderr "GitLab MCP server running on stdio" ].

End GitLabServer.

(* ===================================================================== *)
(** * The three adapters behind one interface *)
(* ===================================================================== *)

Module Dispatch.
Import Js Mcp.

Inductive Adapter : Type :=
| Search
| GitHub
| GitLab.

(** The registry an adapter advertises. *)
Definition registry (a : Adapter) : list Tool :=
  match a with
  | Search => SearchServer.tools
  | GitHub => GitHubServer.tools
  | GitLab => GitLabServer.tools
  end.

Definition registered (a : Adapter) (n : string) : bool :=
  existsb (fun t => String.eqb n (tool_name t)) (registry a).

Definition find_tool (a : Adapter) (n : string) : option Tool :=
  find (fun t => String.eqb n (tool_name t)) (registry a).

(** The dispatcher of an adapter. [API_KEY] is used by the search adapter
    only. *)
Definition invoke (a : Adapter) (API_KEY : string) (w : World)
    (request : CallToolRequest) : M CallToolResult :=
  match a with
  | Search => SearchServer.CallTool API_KEY w request
  | GitHub => GitHubServer.CallTool w request
  | GitLab => GitLabServer.CallTool w request
  end.

Definition boot (a : Adapter) (env : gmap string string) : list BootEvent :=
  match a with
  | Search => SearchServer.boot env
  | GitHub => GitHubServer.boot env
  | GitLab => GitLabServer.boot env
  end.

Definition is_open (e : BootEvent) : bool :=
  match e with
  | ChannelOpen => true
  | _ => false
  end.

(** The invocation channel is opened at some point of the start-up. *)
Definition opens_channel (events : list BootEvent) : bool :=
  existsb is_open events.

(** The credential variable an adapter reads, if any. *)
Definition credential (a : Adapter) : option string :=
  match a with
  | Search => Some "BRAVE_API_KEY"
  | GitHub => None
  | GitLab => Some "GITLAB_TOKEN"
  end.

(** The request carries the argument [field]. *)
Definition supplies (request : CallToolRequest) (field : string) : bool :=
  match arguments request with
  | Some args => has field args
  | None => false
  end.

(** The fields the schema of tool [n] declares required. *)
Definition required_fields (a : Adapter) (n : string) : list string :=
  match find_tool a n with
  | Some t => required (inputSchema t)
  | None => []
  end.

(** ** What the dispatchers answer, stated apart from the handlers *)

(** The error for a tool name outside the registry. *)
Definition unknown_tool_error (a : Adapter) (request : CallToolRequest) : Thrown :=
  match a, arguments request with
  | Search, _ => McpError MethodNotFound "Unknown tool"
  | GitLab, None => McpError InvalidParams "No arguments provided"
  | _, _ => McpError MethodNotFound ("Unknown tool: " +:+ name request)
  end.

(** The complaint of the GitLab adapter about its argument bag: the first
    required field, in schema order, that is not of its declared type. *)
Definition gitlab_complaint (request : CallToolRequest) : string :=
  match arguments request with
  | None => "No arguments provided"
  | Some args =>
      if String.eqb (typeof (get "project_id" args)) "string"
      then "merge_request_iid must be a number"
      else "project_id must be a string"
  end.

(** The [try] block an invocation enters, when it reaches one: the search
    adapter checks the name, converts the query and the count and checks
    the query first, the GitLab adapter the presence of the argument
    bag. *)
Definition guarded_block (a : Adapter) (API_KEY : string) (w : World)
    (request : CallToolRequest) : option (M CallToolResult) :=
  match a with
  | Search =>
      match SearchServer.query_of request, SearchServer.count_of request with
      | Some query, Some count =>
          if String.eqb (name request) "search" && truthy (JStr query)
          then Some (SearchServer.guarded API_KEY w query count)
          else None
      | _, _ => None
      end
  | GitHub => Some (GitHubServer.guarded w request)
  | GitLab =>
      match arguments request with
      | Some args => Some (GitLabServer.guarded w request args)
      | None => None
      end
  end.

(** The qualifiers the code-search tool appends to the query, for
    arguments it has not checked: the language when it is truthy, then
    the repository when owner and repo are, or the user when owner is.
    Each is rendered by its string form; [None] when one has none. *)
Definition qualifiers (language owner repo : JsVal) : option string :=
  let language_part :=
    if truthy language
    then option_map (fun l => " language:" +:+ l) (ToString language)
    else Some "" in
  let scope_part :=
    if truthy owner && truthy repo then
      match ToString owner, ToString repo with
      | Some o, Some r => Some (" repo:" +:+ o +:+ "/" +:+ r)
      | _, _ => None
      end
    else if truthy owner
    then option_map (fun o => " user:" +:+ o) (ToString owner)
    else Some "" in
  match language_part, scope_part with
  | Some l, Some sc => Some (l +:+ sc)
  | _, _ => None
  end.

(** The query the code-search tool sends for a [query] argument it has
    not checked: the value as it is when no qualifier follows, and
    otherwise its string form ([undefined] for an omitted query)
    followed by the qualifiers. *)
Definition unchecked_query (query language owner repo : JsVal) : option JsVal :=
  match qualifiers language owner repo with
  | Some "" => Some query
  | Some q => option_map (fun t => JStr (t +:+ q)) (ToString query)
  | None => None
  end.

(** The backing call of a tool of the GitHub adapter for an argument bag
    it has not checked: every field is passed as it is read, an omitted
    one as [undefined] (or as its declared default); [None] when the
    code-search query cannot be built. *)
Definition unchecked_call (n : string) (args : JsObject) : option Call :=
  if String.eqb n "read_file"
  then Some (ReposGetContent (get "owner" args) (get "repo" args)
               (get "path" args) (with_default (get "ref" args) (JStr "main")))
  else if String.eqb n "list_repository_content"
  then Some (ReposGetContent (get "owner" args) (get "repo" args)
               (with_default (get "path" args) (JStr ""))
               (with_default (get "ref" args) (JStr "main")))
  else
    option_map (fun q => SearchCode q (JNum 10%float))
      (unchecked_query (get "query" args) (get "language" args)
         (get "owner" args) (get "repo" args)).

(** What the GitHub adapter answers when building the query throws. *)
Definition conversion_failure : Thrown :=
  McpError InternalError
    "GitHub API error: Cannot convert object to primitive value".

Definition error_prefix (a : Adapter) : string :=
  match a with
  | Search => "Search failed: "
  | GitHub => "GitHub API error: "
  | GitLab => "GitLab API error: "
  end.

(** [InternalError] with the adapter's prefix and the message of the
    original error. *)
Definition wrapped (a : Adapter) (e : Thrown) : Thrown :=
  McpError InternalError (error_prefix a +:+ message_or_unknown e).

(** What reaches the caller when [e] is raised inside the [try] block. *)
Definition rewrapped (a : Adapter) (e : Thrown) : Thrown :=
  match a with
  | Search =>
      if is_axios_401 e
      then McpError InternalError SearchServer.auth_hint
      else wrapped a e
  | _ => if is_McpError e then e else wrapped a e
  end.

(** An optional string argument as the code-search tool reads it: it
    counts as supplied when it is a non-empty string. *)
Definition qualifier (v : JsVal) : option string :=
  match v with
  | JStr s => if String.eqb s "" then None else Some s
  | _ => None
  end.

(** The argument is a string or absent, as the schema declares it. *)
Definition optional_string (v : JsVal) : bool :=
  match v with
  | JUndefined | JStr _ => true
  | _ => false
  end.

(** The query sent to the code-search endpoint: the user query, then the
    language qualifier, then the repository or user qualifier. *)
Definition expected_query (query : string) (language owner repo : option string)
  : string :=
  let q :=
    match language with
    | Some l => query +:+ (" language:" +:+ l)
    | None => query
    end in
  match owner, repo with
  | Some o, Some r => q +:+ (" repo:" +:+ o +:+ "/" +:+ r)
  | Some o, None => q +:+ (" user:" +:+ o)
  | None, _ => q
  end.

(** The [count] property of the search tool's schema. *)
Definition count_property : option Property :=
  match find_tool Search "search" with
  | Some t =>
      option_map snd
        (find (fun kv => String.eqb (fst kv) "count") (properties (inputSchema t)))
  | None => None
  end.

(** ** Sample backing services and requests *)

Definition unreachable : Thrown := Error "getaddrinfo ENOTFOUND".

(** No backing service can be reached. *)
Definition offline : World :=
  mkWorld (fun _ _ _ => inl unreachable)
          (fun _ _ _ _ => inl unreachable)
          (fun _ _ => inl unreachable)
          (fun _ _ => inl unreachable)
          (fun _ _ => inl unreachable).

(** Backing services that give the same answers to every request. *)
Definition answering (brave : BraveSearchResponse) (file : RepoContent)
    (items : list CodeSearchItem) (mr : JsObject) (diffs : list JsObject)
  : World :=
  mkWorld (fun _ _ _ => inr brave)
          (fun _ _ _ _ => inr file)
          (fun _ _ => inr items)
          (fun _ _ => inr mr)
          (fun _ _ => inr diffs).

(** The search service rejects the key. *)
Definition unauthorized : World :=
  mkWorld (fun _ _ _ =>
             inl (AxiosError "Request failed with status code 401" (Some 401%Z)))
          (fun _ _ _ _ => inl unreachable)
          (fun _ _ => inl unreachable)
          (fun _ _ => inl unreachable)
          (fun _ _ => inl unreachable).

Definition two_results : BraveSearchResponse :=
  mkBraveResponse (Some (mkBraveWeb (Some
    [ mkBraveResult "Rocq" "https://rocq-prover.org" "A proof assistant";
      mkBraveResult "stdpp" "https://gitlab.mpi-sws.org/iris/stdpp" "A library" ]))).

(** The code points of [hello world] and a line feed. *)
Definition hello_world : list N :=
  [104; 101; 108; 108; 111; 32; 119; 111; 114; 108; 100; 10]%N.

Definition readme : RepoContent :=
  Single [ ("type", JStr "file"); ("encoding", JStr "base64");
           ("name", JStr "README.md"); ("content", JStr "aGVsbG8gd29ybGQK") ].

(** The text [h], e with an acute accent, [llo], encoded and wrapped
    into two lines. *)
Definition wrapped_note : RepoContent :=
  Single [ ("type", JStr "file"); ("encoding", JStr "base64");
           ("content",
            JStr ("aMOp" +:+ String (ascii_of_nat 10) "bGxv"
                  +:+ String (ascii_of_nat 10) "")) ].

Definition listing : RepoContent :=
  Directory
    [ [ ("name", JStr "src"); ("type", JStr "dir"); ("path", JStr "src");
        ("size", JNum 0%float); ("sha", JStr "0a1b") ];
      [ ("name", JStr "README.md"); ("type", JStr "file");
        ("path", JStr "README.md"); ("size", JNum 12%float) ] ].

Definition one_match : list CodeSearchItem :=
  [ mkCodeItem [ ("full_name", JStr "rocq-prover/rocq") ]
               (JStr "kernel/reduction.ml")
               (JStr "https://github.com/rocq-prover/rocq/blob/master/kernel/reduction.ml") ].

Definition sample_mr : JsObject :=
  [ ("id", JNum 1001%float); ("iid", JNum 7%float);
    ("title", JStr "Fix dispatch"); ("description", JStr "Checks the name first");
    ("state", JStr "opened"); ("source_branch", JStr "fix");
    ("target_branch", JStr "main"); ("author", JObj [ ("id", JNum 3%float) ]) ].

Definition sample_diffs : list JsObject :=
  [ [ ("old_path", JStr "a.ts"); ("new_path", JStr "a.ts");
      ("diff", JStr "@@ -1 +1 @@"); ("new_file", JBool false) ];
    [ ("old_path", JStr "b.ts"); ("new_path", JStr "c.ts");
      ("diff", JStr "@@ -2 +2 @@") ] ].

Definition services : World :=
  answering two_results readme one_match sample_mr sample_diffs.

End Dispatch.

(* ===================================================================== *)
(** * The adapters as running processes, and their schemas as data *)
(* ===================================================================== *)

Module Coverage.
Import Js Mcp Dispatch.

(** A request served by a started process: there is none to serve when
    the start-up ended in a fatal error. The search handler uses the key
    the module read from the environment. *)
Definition serve (a : Adapter) (env : gmap string string) (w : World)
    (request : CallToolRequest) : option (M CallToolResult) :=
  if opens_channel (boot a env)
  then Some (invoke a (SearchServer.API_KEY env) w request)
  else None.

(** The [X-Subscription-Token] header of a call to the search service. *)
Definition subscription_token (c : Call) : option JsVal :=
  match c with
  | AxiosGet _ headers _ => Some (get "X-Subscription-Token" headers)
  | _ => None
  end.

(** The property names the schema of tool [n] declares. *)
Definition declared_properties (a : Adapter) (n : string) : list string :=
  match find_tool a n with
  | Some t => map fst (properties (inputSchema t))
  | None => []
  end.

(** The default the schema of tool [n] declares for property [p]. *)
Definition declared_default (a : Adapter) (n p : string) : option JsVal :=
  match find_tool a n with
  | Some t =>
      match find (fun kv => String.eqb p (fst kv)) (properties (inputSchema t)) with
      | Some (_, property) => default property
      | None => None
      end
  | None => None
  end.

(** The number of backing calls behind one successful invocation. *)
Definition call_bound (a : Adapter) : nat :=
  match a with
  | GitLab => 2
  | _ => 1
  end.

(** The [count] parameter of a call to the search service. *)
Definition count_param (c : Call) : JsVal :=
  match c with
  | AxiosGet _ _ params => get "count" params
  | _ => JUndefined
  end.

(** The argument bag of [get_merge_request_content] is well typed. *)
Definition merge_request_args (args : JsVal) : Prop :=
  exists o s x,
    args = JObj o /\ get "project_id" o = JStr s
    /\ get "merge_request_iid" o = JNum x.

End Coverage.

(* ===================================================================== *)
(** * Properties *)
(* ===================================================================== *)

Module Properties.
Import Js Mcp Dispatch.

(** Division and remainder by constants, for [lia]. *)
Ltac Zify.zify_post_hook ::= Z.to_euclidean_division_equations.

(** ** The runtime model on known values *)

Example number_to_string_examples :
  map JsNumber.NumberToString
    [ 5; 100; 0.5; -2.5; 1e21; JsNumber.of_decimal false 12345678901234568 4;
      9007199254740992;
      JsNumber.of_decimal false 1 (-7); JsNumber.of_decimal false 1 (-6);
      JsNumber.of_decimal false 1 (-1); JsNumber.of_decimal false 5 (-324);
      (1 / 3); nan; -0; neg_infinity ]%float
  = [ "5"; "100"; "0.5"; "-2.5"; "1e+21"; "123456789012345680000";
      "9007199254740992"; "1e-7"; "0.000001"; "0.1"; "5e-324";
      "0.3333333333333333"; "NaN"; "0"; "-Infinity" ].
Proof. vm_compute. reflexivity. Qed.

Example string_to_number_examples :
  map JsNumber.StringToNumber
    [ "12"; " 0x1F "; "1.5e3"; ".5"; "5."; ""; "Infinity"; "1e400"; "0b101" ]
  = [ 12; 31; 1500; 0.5; 5; 0; infinity; infinity; 5 ]%float
  /\ map (fun s => PrimFloat.is_nan (JsNumber.StringToNumber s))
       [ "abc"; "12px"; "1e"; "."; "-0x10"; "1_000" ]
     = [ true; true; true; true; true; true ].
Proof. split; vm_compute; reflexivity. Qed.

Example coercion_examples :
  map ToString [ JUndefined; JNull; JBool true; JNum 20%float; JStr "q";
                 JArr [ JNum 1%float; JNull; JArr [ JStr "x"; JStr "y" ] ];
                 JObj [ ("a", JNull) ];
                 JObj [ ("toString", JNum 1%float) ];
                 JArr [ JStr "x"; JObj [ ("toString", JNull) ] ] ]
  = [ Some "undefined"; Some "null"; Some "true"; Some "20"; Some "q";
      Some "1,,x,y"; Some "[object Object]"; None; None ]
  /\ map (fun v => option_map (fun x => or_else (JNum x) (JNum 5%float))
                     (ToNumber v))
       [ JUndefined; JNull; JNum 0%float; JStr "abc"; JStr "7"; JBool true;
         JNum 100%float; JNum (-3)%float; JArr [];
         JObj [ ("toString", JNum 1%float) ] ]
     = [ Some (JNum 5); Some (JNum 5); Some (JNum 5); Some (JNum 5);
         Some (JNum 7); Some (JNum 1); Some (JNum 100); Some (JNum (-3));
         Some (JNum 5); None ]%float.
Proof. split; vm_compute; reflexivity. Qed.

(** The base64 decoder reads the low byte of each code unit: U+0141 is
    read as [A], U+013D ends the input as [=] does, and so does the
    first unit D83D of U+1F600; a character outside the alphabets is
    skipped. *)
Example base64_low_byte_examples :
  Buffer.from_base64 "aGVsbG8=" = [104; 101; 108; 108; 111]%N
  /\ Buffer.from_base64
       (string_of_list_ascii
          (map ascii_of_nat [197; 129; 197; 129; 197; 129; 197; 129]))
     = [0; 0; 0]%N
  /\ Buffer.from_base64
       ("aGVs" +:+ string_of_list_ascii (map ascii_of_nat [196; 189]) +:+ "bG8=")
     = [104; 101; 108]%N
  /\ Buffer.from_base64 "aGVs*bG8" = [104; 101; 108; 108; 111]%N
  /\ Buffer.low_bytes (string_of_list_ascii (map ascii_of_nat [240; 159; 152; 128]))
     = [61; 0]%N.
Proof. repeat split. Qed.

(** The UTF-8 decoder replaces each ill-formed sequence by U+FFFD: a
    byte that starts no sequence, a sequence cut short, an overlong
    form and an encoded surrogate, byte by byte. *)
Example utf8_replacement_examples :
  map (fun bs => Buffer.utf8_run Buffer.utf8_idle bs)
    [ [104; 255; 105]; [226; 130]; [240; 159; 152; 65]; [192; 128];
      [237; 160; 128]; [195; 169] ]%N
  = [ [104; 239; 191; 189; 105]; [239; 191; 189]; [239; 191; 189; 65];
      [239; 191; 189; 239; 191; 189];
      [239; 191; 189; 239; 191; 189; 239; 191; 189]; [195; 169] ]%N.
Proof. reflexivity. Qed.

Example json_number_examples :
  map Json.number [ "0"; "-0"; "12"; "1.5e3"; "0.000001"; "1e+21"; "5E-1" ]
  = map Some [ 0; -0; 12; 1500; JsNumber.of_decimal false 1 (-6); 1e21; 0.5 ]%float
  /\ map Json.number [ ""; "01"; ".5"; "5."; "+1"; "1e"; "NaN"; "Infinity"; "0x10"; "1 " ]
     = [ None; None; None; None; None; None; None; None; None; None ].
Proof. split; vm_compute; reflexivity. Qed.

Example environment_examples :
  boot Search (<["BRAVE_API_KEY" := "token"]> ∅)
  = [ ChannelOpen; Stderr "Search MCP server running on stdio" ]
  /\ boot Search (<["BRAVE_API_KEY" := ""]> ∅)
     = [ Fatal "BRAVE_API_KEY environment variable is required" ]
  /\ boot GitLab (<["GITLAB_URL" := "https://gitlab.example.org"]> ∅)
     = [ Fatal "GITLAB_TOKEN environment variable is required" ]
  /\ GitLabServer.GITLAB_URL (<["GITLAB_TOKEN" := "token"]> ∅)
     = "https://gitlab.com".
Proof. repeat split; vm_compute; reflexivity. Qed.

Example json_layout_example :
  JSON_stringify (JArr [ JNum 1%float; JArr []; JUndefined; JBool false ]) 2
  = "[" +:+ newline +:+ "  1," +:+ newline +:+ "  []," +:+ newline
    +:+ "  null," +:+ newline +:+ "  false" +:+ newline +:+ "]"
  /\ JSON_stringify (JObj [ ("absent", JUndefined) ]) 2 = "{}".
Proof. split; vm_compute; reflexivity. Qed.

Example read_file_example :
  invoke GitHub "" services
    (mkRequest "read_file"
       (Some [ ("owner", JStr "vupham90"); ("repo", JStr "mcp");
               ("path", JStr "README.md") ]))
  = ([ ReposGetContent (JStr "vupham90") (JStr "mcp") (JStr "README.md")
         (JStr "main") ],
     Returned {| content := [ {| type := "text"; text :=
       "hello world" +:+ String "010"%char "" |} ] |}).
Proof. reflexivity. Qed.

(** [JSON.stringify] gives a string on every array and object. *)
Lemma serialize_array_defined (gap indent : string) (items : list JsVal) :
  serialize gap indent (JArr items) <> None.
Proof.
  simpl. destruct items; [discriminate|].
  now destruct (String.eqb gap "").
Qed.

Lemma serialize_object_defined (gap indent : string) (props : JsObject) :
  serialize gap indent (JObj props) <> None.
Proof.
  simpl.
  destruct ((fix go (l : list (string * JsVal)) : list string :=
               match l with
               | [] => []
               | (k, x) :: r =>
                   match serialize gap (indent +:+ gap) x with
                   | Some t =>
                       (quote k +:+ (if String.eqb gap "" then ":" else ": ") +:+ t)
                       :: go r
                   | None => go r
                   end
               end) props); [discriminate|].
  now destruct (String.eqb gap "").
Qed.

(** ** JSON texts *)

Lemma string_app_assoc (a b c : string) : (a +:+ b) +:+ c = a +:+ (b +:+ c).
Proof.
  induction a as [|x a IH]; [reflexivity|].
  change (String x ((a +:+ b) +:+ c) = String x (a +:+ b +:+ c)). now f_equal.
Qed.

Lemma append_nil (b : string) : "" +:+ b = b.
Proof. reflexivity. Qed.

Lemma append_cons (c : ascii) (a b : string) :
  String c a +:+ b = String c (a +:+ b).
Proof. reflexivity. Qed.

Lemma append_nil_r (a : string) : a +:+ "" = a.
Proof.
  induction a as [|x a IH]; [reflexivity|].
  change (String x (a +:+ "") = String x a). now f_equal.
Qed.

(** Appends are nested to the right, and literals are pushed inside. *)
Ltac string_normal :=
  rewrite ?string_app_assoc, ?append_cons, ?append_nil, ?append_nil_r.

Lemma ws_append (a b : string) :
  Json.ws a = true -> Json.ws b = true -> Json.ws (a +:+ b) = true.
Proof.
  induction a as [|c a IH]; [auto|].
  rewrite append_cons. simpl. intros H Hb.
  apply andb_true_iff in H as [Hc Ha]. now rewrite Hc, IH.
Qed.

Lemma ws_spaces (n : nat) : Json.ws (spaces n) = true.
Proof. induction n; simpl; auto. Qed.

(** A quoted character denotes the character. *)
Lemma characters_quote_char (c : ascii) (s t : string) :
  Json.characters s t -> Json.characters (String c s) (quote_char c +:+ t).
Proof.
  intros H.
  destruct c as [[] [] [] [] [] [] [] []];
    match goal with
    | |- Json.characters _ (quote_char ?c +:+ _) =>
        let q := eval vm_compute in (quote_char c) in
        change (quote_char c) with q
    end;
    rewrite ?append_cons, ?append_nil;
    first [ apply Json.characters_plain; [reflexivity | exact H]
          | apply Json.characters_escape; [reflexivity | exact H]
          | apply Json.characters_unicode; [reflexivity | exact H] ].
Qed.

Lemma characters_quote_body (s : string) : Json.characters s (quote_body s).
Proof.
  induction s as [|c s IH]; simpl; [constructor|].
  now apply characters_quote_char.
Qed.

Lemma quote_quoted (s : string) : quote s = Json.quoted (quote_body s).
Proof. reflexivity. Qed.

Lemma readable_number_finite (x : JsNumber.num) :
  Json.number (JsNumber.NumberToString x) = Some x -> is_finite x = true.
Proof.
  unfold is_finite, JsNumber.NumberToString.
  destruct (Prim2SF x) as [sg | sg | | sg m e]; try reflexivity.
  - destruct sg; intros H; vm_compute in H; discriminate H.
  - intros H; vm_compute in H; discriminate H.
Qed.

Lemma JsVal_nested_ind (P : JsVal -> Prop) :
  P JUndefined -> P JNull -> (forall b, P (JBool b)) ->
  (forall x, P (JNum x)) -> (forall s, P (JStr s)) ->
  (forall items, Forall P items -> P (JArr items)) ->
  (forall props, Forall (fun kv => P (snd kv)) props -> P (JObj props)) ->
  forall v, P v.
Proof.
  intros Hu Hn Hb Hx Hs Ha Ho. fix IH 1.
  intros [| | b | x | s | items | props].
  - exact Hu.
  - exact Hn.
  - exact (Hb b).
  - exact (Hx x).
  - exact (Hs s).
  - apply Ha.
    exact ((fix all (l : list JsVal) : Forall P l :=
              match l with
              | [] => List.Forall_nil P
              | x :: r => List.Forall_cons P x r (IH x) (all r)
              end) items).
  - apply Ho.
    exact ((fix all (l : JsObject) : Forall (fun kv => P (snd kv)) l :=
              match l with
              | [] => List.Forall_nil _
              | kv :: r => List.Forall_cons _ kv r (IH (snd kv)) (all r)
              end) props).
Qed.

Lemma readable_array (items : list JsVal) :
  Json.readable (JArr items) <-> Forall Json.readable items.
Proof.
  induction items as [|x r IH]; simpl.
  - split; [constructor | trivial].
  - split.
    + intros [Hx Hr]. constructor; [exact Hx | now apply IH].
    + intros H. inversion_clear H as [|? ? Hx Hr]. split; [exact Hx | now apply IH].
Qed.

Lemma readable_object (props : JsObject) :
  Json.readable (JObj props) <-> Forall (fun kv => Json.readable (snd kv)) props.
Proof.
  induction props as [|[k x] r IH]; simpl.
  - split; [constructor | trivial].
  - split.
    + intros [Hx Hr]. constructor; [exact Hx | now apply IH].
    + intros H. inversion_clear H as [|? ? Hx Hr]. split; [exact Hx | now apply IH].
Qed.

(** The elements of an array, one to a line. *)
Lemma elements_joined (f : JsVal -> string) (pre post : string)
    (x : JsVal) (items : list JsVal) :
  Json.ws pre = true -> Json.ws post = true ->
  Forall (fun y => Json.denotes y (f y)) (x :: items) ->
  Json.elements (x :: items)
    (pre +:+ join ("," +:+ pre) (map f (x :: items)) +:+ post).
Proof.
  intros Hpre Hpost. revert x.
  induction items as [|y r IH]; intros x H.
  - inversion_clear H as [|? ? Hx _]. simpl. now constructor.
  - inversion_clear H as [|? ? Hx Hr].
    specialize (IH y Hr).
    replace (pre +:+ join ("," +:+ pre) (map f (x :: y :: r)) +:+ post)
      with (pre +:+ f x +:+ "" +:+ ","
            +:+ (pre +:+ join ("," +:+ pre) (map f (y :: r)) +:+ post)).
    + now constructor.
    + cbn [map join]. now string_normal.
Qed.

(** The members of an object, one to a line. *)
Lemma members_joined (f : JsVal -> string) (pre post : string)
    (m : string * JsVal) (props : JsObject) :
  Json.ws pre = true -> Json.ws post = true ->
  Forall (fun kv => Json.denotes (snd kv) (f (snd kv))) (m :: props) ->
  Json.members (m :: props)
    (pre
     +:+ join ("," +:+ pre)
           (map (fun kv => quote (fst kv) +:+ ": " +:+ f (snd kv)) (m :: props))
     +:+ post).
Proof.
  intros Hpre Hpost. revert m.
  induction props as [|n r IH]; intros [k x] H.
  - inversion_clear H as [|? ? Hx _]. cbn [map join fst snd] in *.
    replace (pre +:+ (quote k +:+ ": " +:+ f x) +:+ post)
      with (pre +:+ Json.quoted (quote_body k) +:+ "" +:+ ":" +:+ " "
            +:+ f x +:+ post).
    + constructor; auto. apply characters_quote_body.
    + rewrite quote_quoted. now string_normal.
  - inversion_clear H as [|? ? Hx Hr].
    specialize (IH n Hr). cbn [fst snd] in Hx.
    replace (pre
             +:+ join ("," +:+ pre)
                   (map (fun kv => quote (fst kv) +:+ ": " +:+ f (snd kv))
                      ((k, x) :: n :: r))
             +:+ post)
      with (pre +:+ Json.quoted (quote_body k) +:+ "" +:+ ":" +:+ " "
            +:+ f x +:+ "" +:+ ","
            +:+ (pre
                 +:+ join ("," +:+ pre)
                       (map (fun kv => quote (fst kv) +:+ ": " +:+ f (snd kv))
                          (n :: r))
                 +:+ post)).
    + constructor; auto. apply characters_quote_body.
    + cbn [map join fst snd]. rewrite quote_quoted. now string_normal.
Qed.

(** [JSON.stringify] with an indentation: the rendering of a readable
    value denotes that value. *)
Lemma serialize_denotes (v : JsVal) :
  Json.readable v ->
  forall gap indent,
    Json.ws gap = true -> Json.ws indent = true -> String.eqb gap "" = false ->
    exists t, serialize gap indent v = Some t /\ Json.denotes v t.
Proof.
  induction v as [| | b | x | s | items IH | props IH] using JsVal_nested_ind;
    intros Hv gap indent Hgap Hindent Hne.
  - destruct Hv.
  - exists "null". split; [reflexivity | constructor].
  - exists (if b then "true" else "false"). split; [reflexivity|].
    destruct b; constructor.
  - simpl in Hv. simpl. rewrite (readable_number_finite x Hv).
    eexists. split; [reflexivity|]. now constructor.
  - exists (quote s). split; [reflexivity|].
    rewrite quote_quoted. constructor. apply characters_quote_body.
  - apply readable_array in Hv.
    set (inner := indent +:+ gap).
    set (f := fun x => match serialize gap inner x with
                       | Some t => t
                       | None => "null"
                       end).
    assert (Hinner : Json.ws inner = true) by now apply ws_append.
    assert (Hparts : serialize gap indent (JArr items)
                     = match map f items with
                       | [] => Some "[]"
                       | parts =>
                           Some ("[" +:+ newline +:+ inner
                                 +:+ join ("," +:+ newline +:+ inner) parts
                                 +:+ newline +:+ indent +:+ "]")
                       end).
    { cbn [serialize]. fold inner. rewrite Hne.
      match goal with
      | |- match ?g items with _ => _ end = _ =>
          assert (E : g items = map f items)
            by (clear; induction items as [|x r IHr];
                [reflexivity | simpl; now rewrite IHr])
      end.
      rewrite E. now destruct (map _ _). }
    rewrite Hparts.
    destruct items as [|x r].
    + exists "[]". split; [reflexivity|].
      apply (Json.denotes_array [] ""). now apply Json.elements_none.
    + cbn [map]. eexists. split; [reflexivity|].
      assert (Hall : Forall (fun y => Json.denotes y (f y)) (x :: r)).
      { clear Hparts. induction IH as [|y l Hy _ IHl]; [constructor|].
        inversion_clear Hv as [|? ? Hry Hrl].
        constructor; [|exact (IHl Hrl)].
        destruct (Hy Hry gap inner Hgap Hinner Hne) as (t & Ht & Hd).
        unfold f. now rewrite Ht. }
      pose proof (elements_joined f (newline +:+ inner) (newline +:+ indent)
                    x r) as Hel.
      cbn [map] in Hel.
      replace ("[" +:+ newline +:+ inner
               +:+ join ("," +:+ newline +:+ inner) (f x :: map f r)
               +:+ newline +:+ indent +:+ "]")
        with ("[" +:+ ((newline +:+ inner)
                       +:+ join ("," +:+ newline +:+ inner) (f x :: map f r)
                       +:+ newline +:+ indent) +:+ "]")
        by now rewrite !string_app_assoc.
      apply Json.denotes_array.
      apply Hel; [now apply ws_append.. | exact Hall].
  - apply readable_object in Hv.
    set (inner := indent +:+ gap).
    set (f := fun x => match serialize gap inner x with
                       | Some t => t
                       | None => "null"
                       end).
    assert (Hinner : Json.ws inner = true) by now apply ws_append.
    assert (Hall : Forall (fun kv => Json.denotes (snd kv) (f (snd kv))
                                     /\ serialize gap inner (snd kv)
                                        = Some (f (snd kv))) props).
    { induction IH as [|kv l Hy _ IHl]; [constructor|].
      inversion_clear Hv as [|? ? Hry Hrl].
      constructor; [|exact (IHl Hrl)].
      destruct (Hy Hry gap inner Hgap Hinner Hne) as (t & Ht & Hd).
      unfold f. now rewrite Ht. }
    assert (Hparts : serialize gap indent (JObj props)
                     = match map (fun kv => quote (fst kv) +:+ ": " +:+ f (snd kv))
                               props with
                       | [] => Some "{}"
                       | parts =>
                           Some ("{" +:+ newline +:+ inner
                                 +:+ join ("," +:+ newline +:+ inner) parts
                                 +:+ newline +:+ indent +:+ "}")
                       end).
    { cbn [serialize]. fold inner. rewrite Hne.
      match goal with
      | |- match ?g props with _ => _ end = _ =>
          assert (E : g props
                      = map (fun kv => quote (fst kv) +:+ ": " +:+ f (snd kv))
                          props)
            by (clear - Hall; induction Hall as [|[k x] l [_ Hs] _ IHl];
                [reflexivity | cbn [snd] in Hs; simpl; now rewrite Hs, IHl])
      end.
      rewrite E. now destruct (map _ _). }
    rewrite Hparts.
    destruct props as [|m r].
    + exists "{}". split; [reflexivity|].
      apply (Json.denotes_object [] ""). now apply Json.members_none.
    + set (g := fun kv : string * JsVal => quote (fst kv) +:+ ": " +:+ f (snd kv)).
      cbn [map]. eexists. split; [reflexivity|].
      pose proof (members_joined f (newline +:+ inner) (newline +:+ indent)
                    m r) as Hel.
      fold g in Hel. cbn [map] in Hel.
      replace ("{" +:+ newline +:+ inner
               +:+ join ("," +:+ newline +:+ inner) (g m :: map g r)
               +:+ newline +:+ indent +:+ "}")
        with ("{" +:+ ((newline +:+ inner)
                       +:+ join ("," +:+ newline +:+ inner) (g m :: map g r)
                       +:+ newline +:+ indent) +:+ "}")
        by now rewrite !string_app_assoc.
      apply Json.denotes_object.
      apply Hel; [now apply ws_append.. |].
      clear - Hall. induction Hall as [|kv l [Hd _] _ IHl]; now constructor.
Qed.

(** [JSON.stringify(v, null, 2)] of a readable value is a JSON text that
    denotes it. *)
Theorem stringify_denotes (v : JsVal) :
  Json.readable v -> Json.denotes v (JSON_stringify v 2).
Proof.
  intros Hv. unfold JSON_stringify.
  destruct (serialize_denotes v Hv (spaces (Nat.min 2 10)) "")
    as (t & -> & Hd); auto using ws_spaces.
Qed.

(** ** Computations *)

Lemma bind_ret {A B : Type} (a : A) (f : A -> M B) : bind (ret a) f = f a.
Proof. unfold bind, ret. now destruct (f a). Qed.

(** The search handler, by cases on its two conversions. *)
Lemma search_call_cases (key : string) (w : World) (request : CallToolRequest) :
  SearchServer.CallTool key w request
  = if negb (String.eqb (name request) "search")
    then throw (McpError MethodNotFound "Unknown tool")
    else
      match SearchServer.query_of request, SearchServer.count_of request with
      | Some query, Some count =>
          if negb (truthy (JStr query))
          then throw (McpError InvalidParams "Search query is required")
          else try_catch (SearchServer.guarded key w query count)
                 SearchServer.on_error
      | _, _ => throw TypeError_primitive
      end.
Proof.
  unfold SearchServer.CallTool.
  destruct (negb _); [reflexivity|].
  destruct (SearchServer.query_of request) as [query|]; [|reflexivity].
  destruct (SearchServer.count_of request) as [count|]; [|reflexivity].
  unfold convert. now rewrite !bind_ret.
Qed.

(** The query of the code search, as built statement by statement and as
    described by its qualifiers. *)
Lemma build_query_unchecked (query language owner repo : JsVal) :
  GitHubServer.build_query query language owner repo
  = unchecked_query query language owner repo.
Proof.
  unfold GitHubServer.build_query, unchecked_query, qualifiers,
    GitHubServer.plus_assign, GitHubServer.template1, GitHubServer.template2,
    plus_string.
  destruct (truthy language), (truthy owner), (truthy repo),
    (ToString language) as [l|], (ToString owner) as [o|],
    (ToString repo) as [r|], (ToString query) as [t|];
    cbn [andb option_map ToString]; rewrite ?append_cons, ?append_nil;
    try reflexivity; cbn [option_map ToString]; now string_normal.
Qed.

(** ** Property reads *)

Lemma get_absent (key : string) (o : JsObject) :
  has key o = false -> get key o = JUndefined.
Proof.
  unfold has. induction o as [|[k v] o IH]; simpl; [reflexivity|].
  intros H. apply orb_false_iff in H as [Hk Ho].
  rewrite Hk. now apply IH.
Qed.

Lemma get_string_present (key : string) (o : JsObject) (s : string) :
  get key o = JStr s -> has key o = true.
Proof.
  destruct (has key o) eqn:E; [reflexivity|].
  rewrite (get_absent _ _ E). discriminate.
Qed.

(** ** Names outside a registry *)

Lemma eqb_false_of_orb (b c : bool) : b || c = false -> b = false /\ c = false.
Proof. apply orb_false_iff. Qed.

Lemma unregistered_search (n : string) :
  registered Search n = false -> String.eqb n "search" = false.
Proof. unfold registered; simpl. now rewrite orb_false_r. Qed.

Lemma unregistered_github (n : string) :
  registered GitHub n = false ->
  String.eqb n "read_file" = false /\
  String.eqb n "search_code" = false /\
  String.eqb n "list_repository_content" = false.
Proof.
  unfold registered; simpl. rewrite orb_false_r.
  intros H. apply eqb_false_of_orb in H as [H1 H].
  apply eqb_false_of_orb in H as [H2 H3]. auto.
Qed.

Lemma unregistered_gitlab (n : string) :
  registered GitLab n = false ->
  String.eqb n "get_merge_request_content" = false.
Proof. unfold registered; simpl. now rewrite orb_false_r. Qed.

(** C1, as amended. A request whose tool name is outside the registry of
    its adapter fails before any outbound call is issued. The GitHub
    adapter answers MethodNotFound with the message [Unknown tool: <name>]
    for every argument bag, absent or not; the GitLab adapter answers the
    same when an argument bag is present, and InvalidParams
    [No arguments provided] when it is absent, because it looks at the
    bag before the name; the search adapter answers MethodNotFound with
    the fixed message [Unknown tool]. *)
Theorem unknown_tool_fails_without_call
    (a : Adapter) (key : string) (w : World) (request : CallToolRequest) :
  registered a (name request) = false ->
  invoke a key w request = ([], Threw (unknown_tool_error a request)).
Proof.
  intros H. destruct a; simpl.
  - apply unregistered_search in H.
    unfold SearchServer.CallTool. now rewrite H.
  - apply unregistered_github in H as (H1 & H2 & H3).
    unfold GitHubServer.CallTool, GitHubServer.guarded.
    rewrite H1, H2, H3. unfold unknown_tool_error.
    now destruct (arguments request).
  - apply unregistered_gitlab in H.
    unfold GitLabServer.CallTool, GitLabServer.guarded, unknown_tool_error.
    destruct (arguments request); [|reflexivity].
    now rewrite H.
Qed.

Lemma unknown_tool_fails_without_call_witness :
  registered GitHub "delete_repository" = false /\
  invoke GitHub "" offline (mkRequest "delete_repository" None)
  = ([], Threw (McpError MethodNotFound "Unknown tool: delete_repository")).
Proof.
  split; [reflexivity|].
  exact (unknown_tool_fails_without_call GitHub "" offline
           (mkRequest "delete_repository" None) eq_refl).
Defined.

(** C1 as stated fails: with no argument bag the GitLab adapter answers
    an unknown tool name with InvalidParams, and the message of the
    search adapter does not name the tool. *)
Lemma unknown_tool_counterexample :
  (registered GitLab "nope" = false /\
   invoke GitLab "" offline (mkRequest "nope" None)
   = ([], Threw (McpError InvalidParams "No arguments provided")))
  /\
  (registered Search "nope" = false /\
   invoke Search "key" offline (mkRequest "nope" None)
   = ([], Threw (McpError MethodNotFound "Unknown tool")) /\
   includes "nope" "Unknown tool" = false).
Proof. repeat split. Qed.

(** ** Omitted arguments *)

Lemma supplies_absent (request : CallToolRequest) (args : JsObject) (field : string) :
  arguments request = Some args ->
  supplies request field = false ->
  get field args = JUndefined.
Proof.
  unfold supplies. intros ->. apply get_absent.
Qed.

Lemma gitlab_validation_rejects
    (w : World) (request : CallToolRequest) (args : JsObject) :
  arguments request = Some args ->
  name request = "get_merge_request_content" ->
  get "project_id" args = JUndefined \/ get "merge_request_iid" args = JUndefined ->
  GitLabServer.CallTool w request
  = ([], Threw (McpError InvalidParams (gitlab_complaint request))).
Proof.
  intros Hargs Hname Hmiss.
  unfold GitLabServer.CallTool, GitLabServer.guarded, gitlab_complaint.
  rewrite Hargs, Hname.
  unfold GitLabServer.validateGetMergeRequestContentArgs; simpl.
  destruct Hmiss as [H | H]; rewrite H; simpl; [reflexivity|].
  now destruct (String.eqb (typeof (get "project_id" args)) "string").
Qed.

(** The tools of the GitHub adapter do not check an argument bag that is
    present: each issues the backing call of [unchecked_call], whatever
    the bag holds, and none when the code-search query cannot be built. *)
Lemma github_unchecked_call
    (w : World) (request : CallToolRequest) (args : JsObject) :
  arguments request = Some args ->
  registered GitHub (name request) = true ->
  match unchecked_call (name request) args with
  | Some c => calls (GitHubServer.CallTool w request) = [c]
  | None => GitHubServer.CallTool w request = ([], Threw conversion_failure)
  end.
Proof.
  intros Hargs Hreg.
  unfold registered in Hreg; simpl in Hreg. rewrite orb_false_r in Hreg.
  unfold GitHubServer.CallTool, GitHubServer.guarded, unchecked_call.
  destruct (String.eqb (name request) "read_file").
  { unfold GitHubServer.read_file, GitHubServer.destructure. rewrite Hargs.
    cbv [bind perform try_catch calls fst].
    destruct (repos_getContent w _ _ _ _) as [e | data]; simpl.
    - unfold GitHubServer.on_error. now destruct (is_McpError e).
    - now destruct (GitHubServer.string_content data). }
  destruct (String.eqb (name request) "search_code") eqn:Hsearch.
  { apply String.eqb_eq in Hsearch. rewrite Hsearch.
    cbn [String.eqb Ascii.eqb Bool.eqb]. cbv iota.
    unfold GitHubServer.search_code_tool, GitHubServer.destructure.
    rewrite Hargs, build_query_unchecked.
    destruct (unchecked_query _ _ _ _) as [q|];
      cbn [option_map convert]; [|reflexivity].
    rewrite bind_ret. cbv [bind perform try_catch calls fst ret].
    destruct (search_code w _ _) as [e | items]; simpl; [|reflexivity].
    unfold GitHubServer.on_error. now destruct (is_McpError e). }
  destruct (String.eqb (name request) "list_repository_content");
    [|discriminate].
  unfold GitHubServer.list_repository_content, GitHubServer.destructure.
  rewrite Hargs. cbv [bind perform try_catch calls fst].
  destruct (repos_getContent w _ _ _ _) as [e | data]; simpl.
  - unfold GitHubServer.on_error. now destruct (is_McpError e).
  - now destruct data.
Qed.

Lemma github_absent_bag (w : World) (request : CallToolRequest) :
  arguments request = None ->
  registered GitHub (name request) = true ->
  exists m, GitHubServer.CallTool w request
            = ([], Threw (McpError InternalError m)).
Proof.
  intros Hargs Hreg.
  unfold registered in Hreg; simpl in Hreg. rewrite orb_false_r in Hreg.
  unfold GitHubServer.CallTool, GitHubServer.guarded,
    GitHubServer.read_file, GitHubServer.search_code_tool,
    GitHubServer.list_repository_content, GitHubServer.destructure.
  rewrite Hargs.
  destruct (String.eqb (name request) "read_file"); [simpl; eauto|].
  destruct (String.eqb (name request) "search_code"); [simpl; eauto|].
  destruct (String.eqb (name request) "list_repository_content");
    [simpl; eauto|discriminate].
Qed.

Lemma required_fields_registered (a : Adapter) (n field : string) :
  In field (required_fields a n) -> registered a n = true.
Proof.
  unfold required_fields, find_tool, registered.
  induction (registry a) as [|t ts IH]; simpl; [tauto|].
  destruct (String.eqb n (tool_name t)); [reflexivity|]. apply IH.
Qed.

(** C2, as amended. In the GitLab adapter a call that omits a required
    argument of its tool fails with InvalidParams before any outbound
    call: with [No arguments provided] when the bag is absent, and
    otherwise with a message that names the first required field that
    is missing or of the wrong type. The GitHub adapter does not validate
    its arguments. With a bag present, [read_file] and
    [list_repository_content] issue their backing call all the same,
    with the omitted field passed as [undefined]; [search_code] does so
    too, its omitted query being sent as [undefined] when no qualifier
    follows and as the text [undefined] followed by the qualifiers
    otherwise, unless a qualifier cannot be converted to a string, in
    which case it fails with InternalError and no call. With the bag
    absent the GitHub adapter fails with InternalError and no call.
    (The search adapter is left out of this statement.) *)
Theorem missing_required_argument
    (a : Adapter) (key : string) (w : World) (request : CallToolRequest)
    (field : string) :
  a <> Search ->
  In field (required_fields a (name request)) ->
  supplies request field = false ->
  match a with
  | GitLab =>
      invoke a key w request
      = ([], Threw (McpError InvalidParams (gitlab_complaint request)))
  | _ =>
      match arguments request with
      | Some args =>
          get field args = JUndefined
          /\ match unchecked_call (name request) args with
             | Some c => calls (invoke a key w request) = [c]
             | None =>
                 invoke a key w request
                 = ([], Threw (McpError InternalError
                      "GitHub API error: Cannot convert object to primitive value"))
             end
      | None =>
          exists m, invoke a key w request
                    = ([], Threw (McpError InternalError m))
      end
  end.
Proof.
  intros Ha Hin Hsup. destruct a; [congruence| |].
  - apply required_fields_registered in Hin. simpl.
    destruct (arguments request) as [args|] eqn:Hargs.
    + split; [now apply supplies_absent with request|].
      exact (github_unchecked_call w request args Hargs Hin).
    + now apply github_absent_bag.
  - simpl. destruct (arguments request) as [args|] eqn:Hargs.
    + unfold required_fields, find_tool in Hin; simpl in Hin.
      destruct (String.eqb (name request) "get_merge_request_content") eqn:Hn;
        [|contradiction].
      apply String.eqb_eq in Hn.
      apply gitlab_validation_rejects with args; [assumption..|].
      simpl in Hin.
      destruct Hin as [<- | [<- | []]];
        [left | right]; now apply supplies_absent with request.
    + unfold GitLabServer.CallTool, gitlab_complaint. now rewrite Hargs.
Qed.

Lemma missing_required_argument_witness :
  invoke GitLab "" services
    (mkRequest "get_merge_request_content" (Some [ ("project_id", JStr "group/app") ]))
  = ([], Threw (McpError InvalidParams "merge_request_iid must be a number"))
  /\
  (get "owner" [ ("repo", JStr "mcp"); ("path", JStr "README.md") ] = JUndefined
   /\ calls (invoke GitHub "" offline
               (mkRequest "read_file"
                  (Some [ ("repo", JStr "mcp"); ("path", JStr "README.md") ])))
      = [ ReposGetContent JUndefined (JStr "mcp") (JStr "README.md") (JStr "main") ])
  /\
  (get "query" [ ("language", JStr "ocaml") ] = JUndefined
   /\ calls (invoke GitHub "" offline
               (mkRequest "search_code" (Some [ ("language", JStr "ocaml") ])))
      = [ SearchCode (JStr "undefined language:ocaml") (JNum 10%float) ])
  /\
  (get "query" [ ("language", JObj [ ("toString", JNum 1%float) ]) ] = JUndefined
   /\ invoke GitHub "" services
        (mkRequest "search_code"
           (Some [ ("language", JObj [ ("toString", JNum 1%float) ]) ]))
      = ([], Threw (McpError InternalError
           "GitHub API error: Cannot convert object to primitive value"))).
Proof.
  split; [|split; [|split]].
  - refine (missing_required_argument GitLab "" services
              (mkRequest "get_merge_request_content"
                 (Some [ ("project_id", JStr "group/app") ]))
              "merge_request_iid" _ _ _).
    + discriminate.
    + simpl. auto.
    + reflexivity.
  - refine (missing_required_argument GitHub "" offline
              (mkRequest "read_file"
                 (Some [ ("repo", JStr "mcp"); ("path", JStr "README.md") ]))
              "owner" _ _ _).
    + discriminate.
    + simpl. auto.
    + reflexivity.
  - refine (missing_required_argument GitHub "" offline
              (mkRequest "search_code" (Some [ ("language", JStr "ocaml") ]))
              "query" _ _ _).
    + discriminate.
    + simpl. auto.
    + reflexivity.
  - refine (missing_required_argument GitHub "" services
              (mkRequest "search_code"
                 (Some [ ("language", JObj [ ("toString", JNum 1%float) ]) ]))
              "query" _ _ _).
    + discriminate.
    + simpl. auto.
    + reflexivity.
Defined.

(** C2 as stated fails: the GitHub adapter issues its backing call
    although the required [owner] is omitted, and what it reports is the
    failure of that call; the search adapter searches for the text
    [undefined] when the required [query] is omitted, and succeeds. *)
Lemma missing_required_argument_counterexample :
  (In "owner" (required_fields GitHub "read_file") /\
   supplies (mkRequest "read_file"
               (Some [ ("repo", JStr "mcp"); ("path", JStr "README.md") ]))
            "owner" = false /\
   invoke GitHub "" offline
     (mkRequest "read_file"
        (Some [ ("repo", JStr "mcp"); ("path", JStr "README.md") ]))
   = ([ ReposGetContent JUndefined (JStr "mcp") (JStr "README.md") (JStr "main") ],
      Threw (McpError InternalError "GitHub API error: getaddrinfo ENOTFOUND")))
  /\
  (In "query" (required_fields Search "search") /\
   supplies (mkRequest "search" (Some [])) "query" = false /\
   invoke Search "key" services (mkRequest "search" (Some []))
   = ([ AxiosGet SearchServer.BRAVE_SEARCH_URL
          [ ("X-Subscription-Token", JStr "key") ]
          [ ("q", JStr "undefined"); ("count", JNum 5%float);
            ("text_decorations", JBool false); ("text_format", JStr "plain") ] ],
      Returned
        {| content := [ {| type := "text"; text :=
          Json.lines
            [ "[";
              "  {";
              "    " +:+ Json.quoted "title" +:+ ": " +:+ Json.quoted "Rocq" +:+ ",";
              "    " +:+ Json.quoted "url" +:+ ": "
                +:+ Json.quoted "https://rocq-prover.org" +:+ ",";
              "    " +:+ Json.quoted "description" +:+ ": "
                +:+ Json.quoted "A proof assistant";
              "  },";
              "  {";
              "    " +:+ Json.quoted "title" +:+ ": " +:+ Json.quoted "stdpp" +:+ ",";
              "    " +:+ Json.quoted "url" +:+ ": "
                +:+ Json.quoted "https://gitlab.mpi-sws.org/iris/stdpp" +:+ ",";
              "    " +:+ Json.quoted "description" +:+ ": "
                +:+ Json.quoted "A library";
              "  }";
              "]" ] |} ] |})).
Proof.
  repeat split; simpl; auto.
Qed.

(** ** Errors *)

(** C3, as amended. An error raised inside the [try] block of a handler
    leaves the adapter as follows. In the GitHub and GitLab adapters an
    McpError is raised again unchanged, and any other thrown value is
    wrapped as InternalError whose message is the adapter's prefix
    followed by the message of the original Error (by [Unknown error]
    when the value is no Error). In the search adapter a thrown value
    that is no McpError is wrapped in the same way, except an Axios
    error with response status 401, which becomes InternalError with a
    fixed message that does not carry the original one. The outbound
    calls recorded are those of the block. *)
Theorem errors_leave_rewrapped
    (a : Adapter) (key : string) (w : World) (request : CallToolRequest)
    (block : M CallToolResult) (e : Thrown) :
  guarded_block a key w request = Some block ->
  outcome block = Threw e ->
  (a = Search -> is_McpError e = false) ->
  invoke a key w request = (calls block, Threw (rewrapped a e)).
Proof.
  intros Hblock Hthrow Hsearch.
  destruct block as [t r]; simpl in Hthrow; subst r; simpl calls.
  destruct a; cbn [guarded_block invoke rewrapped] in *.
  - rewrite search_call_cases.
    destruct (SearchServer.query_of request) as [query|];
      [|discriminate Hblock].
    destruct (SearchServer.count_of request) as [count|];
      [|discriminate Hblock].
    destruct (String.eqb (name request) "search"), (truthy (JStr query));
      cbn [andb negb] in *; try discriminate Hblock.
    injection Hblock as ->.
    unfold try_catch, SearchServer.on_error, rewrapped, wrapped.
    destruct (is_axios_401 e); simpl; now rewrite app_nil_r.
  - injection Hblock as Hblock. unfold GitHubServer.CallTool.
    rewrite Hblock. unfold try_catch, GitHubServer.on_error, wrapped.
    destruct (is_McpError e); simpl; now rewrite app_nil_r.
  - unfold GitLabServer.CallTool.
    destruct (arguments request) as [args|]; [|discriminate Hblock].
    injection Hblock as ->.
    unfold try_catch, GitLabServer.on_error, wrapped.
    destruct (is_McpError e); simpl; now rewrite app_nil_r.
Qed.

Lemma errors_leave_rewrapped_witness :
  invoke GitLab "" offline
    (mkRequest "get_merge_request_content"
       (Some [ ("project_id", JStr "group/app");
               ("merge_request_iid", JNum 7%float) ]))
  = ([ MergeRequestsShow (JStr "group/app") (JNum 7%float) ],
     Threw (McpError InternalError "GitLab API error: getaddrinfo ENOTFOUND")).
Proof.
  refine (errors_leave_rewrapped GitLab "" offline
            (mkRequest "get_merge_request_content"
               (Some [ ("project_id", JStr "group/app");
                       ("merge_request_iid", JNum 7%float) ]))
            _ unreachable eq_refl eq_refl _).
  discriminate.
Defined.

(** C3 as stated fails: the search adapter answers an Axios error with
    status 401 by a fixed message, which does not carry the message of
    the original error. *)
Lemma errors_wrapped_counterexample :
  axios_get unauthorized SearchServer.BRAVE_SEARCH_URL
    [ ("X-Subscription-Token", JStr "key") ]
    [ ("q", JStr "rocq"); ("count", JNum 5%float);
      ("text_decorations", JBool false); ("text_format", JStr "plain") ]
  = inl (AxiosError "Request failed with status code 401" (Some 401%Z))
  /\
  outcome (invoke Search "key" unauthorized
             (mkRequest "search" (Some [ ("query", JStr "rocq") ])))
  = Threw (McpError InternalError
      "Search failed: Please visit https://api.search.brave.com to get started with Brave Search API")
  /\
  includes "Request failed with status code 401"
    "Search failed: Please visit https://api.search.brave.com to get started with Brave Search API"
  = false.
Proof. repeat split. Qed.

(** ** Start-up *)

(** C4, as amended. The search adapter and the GitLab adapter each
    require one credential variable ([BRAVE_API_KEY], [GITLAB_TOKEN]):
    when it is unset or empty the process ends with a fatal error and the
    invocation channel is never opened, otherwise the channel is opened,
    and no other variable of the environment changes the start-up. The
    GitHub adapter requires no credential: it opens the channel in every
    environment. *)
Theorem credential_decides_startup (a : Adapter) (env : gmap string string) :
  match credential a with
  | Some var =>
      (if env_missing (env !! var)
       then (exists msg, boot a env = [Fatal msg])
            /\ opens_channel (boot a env) = false
       else opens_channel (boot a env) = true)
      /\ (forall env' : gmap string string,
            env' !! var = env !! var -> boot a env' = boot a env)
  | None => opens_channel (boot a env) = true
  end.
Proof.
  destruct a; simpl.
  - unfold SearchServer.boot. split.
    + destruct (env_missing (env !! "BRAVE_API_KEY")); simpl; eauto.
    + now intros env' ->.
  - reflexivity.
  - unfold GitLabServer.boot. split.
    + destruct (env_missing (env !! "GITLAB_TOKEN")); simpl; eauto.
    + now intros env' ->.
Qed.

(** C4 as stated fails: the GitHub adapter starts and opens the channel
    in the empty environment, with no credential at all. *)
Lemma credential_counterexample :
  credential GitHub = None /\
  boot GitHub ∅ = [ ChannelOpen; Stderr "GitHub MCP server running on stdio" ].
Proof. split; reflexivity. Qed.

(** ** Results *)

(** Case analysis on the innermost scrutinee of a hypothesis. *)
Ltac split_cases H :=
  repeat match type of H with
    | context [match ?x with _ => _ end] =>
        lazymatch x with
        | context [match _ with _ => _ end] => fail
        | _ => destruct x
        end
    end.

(** C10. Every result an adapter returns holds exactly one content
    element, of kind text. *)
Theorem success_is_one_text
    (a : Adapter) (key : string) (w : World) (request : CallToolRequest)
    (r : CallToolResult) :
  outcome (invoke a key w request) = Returned r ->
  exists t, content r = [ {| type := "text"; text := t |} ].
Proof.
  intros H. destruct a;
    cbv [invoke outcome snd bind try_catch perform ret throw convert
         SearchServer.CallTool SearchServer.guarded SearchServer.on_error
         GitHubServer.CallTool GitHubServer.guarded GitHubServer.on_error
         GitHubServer.read_file GitHubServer.search_code_tool
         GitHubServer.list_repository_content GitHubServer.destructure
         GitLabServer.CallTool GitLabServer.guarded GitLabServer.on_error
         GitLabServer.validateGetMergeRequestContentArgs] in H;
    split_cases H; try discriminate;
    injection H as <-; unfold text_result; simpl; eauto.
Qed.

Lemma success_is_one_text_witness :
  exists t,
    content (text_result (Buffer.toString_utf8 (Buffer.from_base64 "aGVsbG8gd29ybGQK")))
    = [ {| type := "text"; text := t |} ].
Proof.
  exact (success_is_one_text GitHub "" services
           (mkRequest "read_file"
              (Some [ ("owner", JStr "vupham90"); ("repo", JStr "mcp");
                      ("path", JStr "README.md") ]))
           _ eq_refl).
Defined.

(** ** Web search *)

Lemma results_length_zero (data : BraveSearchResponse) :
  SearchServer.web_results data = [] ->
  SearchServer.results_length data = None \/
  SearchServer.results_length data = Some O.
Proof.
  unfold SearchServer.web_results, SearchServer.results_length.
  destruct (web data) as [wb|]; [|now left].
  destruct (results wb) as [l|]; [|now left].
  intros ->. now right.
Qed.

Lemma results_length_positive (data : BraveSearchResponse) :
  SearchServer.web_results data <> [] ->
  exists n, SearchServer.results_length data = Some (S n).
Proof.
  unfold SearchServer.web_results, SearchServer.results_length.
  destruct (web data) as [wb|]; [|congruence].
  destruct (results wb) as [[|r l]|]; [congruence| |congruence].
  intros _. simpl. eauto.
Qed.

Lemma readable_reshape (results : list BraveSearchResult) :
  Json.readable (JArr (map SearchServer.reshape results)).
Proof.
  apply readable_array. induction results; constructor; simpl; auto.
Qed.

Section WebSearch.

(** A call of the search tool whose query and count can be converted,
    the query to a string that is not empty: the calls that reach the
    backing service. *)
Context (key : string) (w : World) (request : CallToolRequest).
Context (query : string) (count : JsVal).
Hypothesis Hname : name request = "search".
Hypothesis Hquery : SearchServer.query_of request = Some query.
Hypothesis Hcount : SearchServer.count_of request = Some count.
Hypothesis Hne : query <> "".

Lemma search_enters_block :
  SearchServer.CallTool key w request
  = try_catch (SearchServer.guarded key w query count) SearchServer.on_error.
Proof.
  rewrite search_call_cases, Hname, Hquery, Hcount. simpl.
  apply String.eqb_neq in Hne. now rewrite Hne.
Qed.

(** The outbound call, whatever the backing service answers. *)
Lemma search_issues_one_call :
  calls (invoke Search key w request)
  = [ AxiosGet SearchServer.BRAVE_SEARCH_URL
        [ ("X-Subscription-Token", JStr key) ]
        [ ("q", JStr query); ("count", count);
          ("text_decorations", JBool false); ("text_format", JStr "plain") ] ].
Proof.
  simpl. rewrite search_enters_block.
  unfold SearchServer.guarded, SearchServer.on_error.
  cbv [bind perform try_catch calls fst].
  destruct (axios_get w _ _ _) as [e | data]; simpl.
  - now destruct (is_axios_401 e).
  - now destruct (SearchServer.results_length data) as [[|n]|].
Qed.

(** C5. For a search that reaches the backing service (the query and
    the count can be converted, and the query is not the empty string):
    when the backing response holds no result, the text returned by the
    web-search tool is exactly [No results found.]; when it holds N
    results, the text is a JSON text that denotes an array of N objects,
    the i-th of which holds the title, the url and the description of
    the i-th backing result, unchanged. *)
Theorem search_reshapes_results (data : BraveSearchResponse) :
  (forall headers params,
     axios_get w SearchServer.BRAVE_SEARCH_URL headers params = inr data) ->
  (SearchServer.web_results data = [] ->
   outcome (invoke Search key w request)
   = Returned {| content := [ {| type := "text";
                                 text := "No results found." |} ] |})
  /\
  (SearchServer.web_results data <> [] ->
   exists items t,
     outcome (invoke Search key w request)
     = Returned {| content := [ {| type := "text"; text := t |} ] |}
     /\ Json.denotes (JArr items) t
     /\ t = JSON_stringify (JArr items) 2
     /\ List.length items = List.length (SearchServer.web_results data)
     /\ forall i r,
          nth_error (SearchServer.web_results data) i = Some r ->
          nth_error items i
          = Some (JObj [ ("title", JStr (title r));
                         ("url", JStr (url r));
                         ("description", JStr (description r)) ])).
Proof.
  intros Hworld. simpl. rewrite search_enters_block.
  unfold SearchServer.guarded. rewrite Hworld. cbv [bind perform].
  split; intros Hres.
  - now destruct (results_length_zero data Hres) as [-> | ->].
  - destruct (results_length_positive data Hres) as [n ->].
    exists (map SearchServer.reshape (SearchServer.web_results data)).
    eexists. split; [reflexivity|].
    split; [apply stringify_denotes, readable_reshape|].
    split; [reflexivity|]. split; [apply length_map|].
    intros i r Hi. rewrite nth_error_map, Hi. reflexivity.
Qed.

(** The number sent as [count] is the one supplied whenever it is a
    number other than zero and NaN, whatever its size. *)
Lemma search_count_sent (x : JsNumber.num) :
  get_opt "count" (arguments request) = JNum x ->
  JsNumber.truthy x = true ->
  count = JNum x.
Proof.
  intros Hx Htruthy. revert Hcount.
  unfold SearchServer.count_of, or_else. rewrite Hx. simpl.
  rewrite Htruthy. now intros [= <-].
Qed.

(** The count is 5 when the argument is omitted. *)
Lemma search_count_default :
  get_opt "count" (arguments request) = JUndefined ->
  count = JNum 5%float.
Proof.
  intros Hx. revert Hcount. unfold SearchServer.count_of, or_else.
  rewrite Hx. now intros [= <-].
Qed.

End WebSearch.

Lemma search_reshapes_results_witness :
  outcome (invoke Search "key" services
             (mkRequest "search" (Some [ ("query", JStr "rocq") ])))
  = Returned {| content := [ {| type := "text"; text :=
      Json.lines
        [ "[";
          "  {";
          "    " +:+ Json.quoted "title" +:+ ": " +:+ Json.quoted "Rocq" +:+ ",";
          "    " +:+ Json.quoted "url" +:+ ": "
            +:+ Json.quoted "https://rocq-prover.org" +:+ ",";
          "    " +:+ Json.quoted "description" +:+ ": "
            +:+ Json.quoted "A proof assistant";
          "  },";
          "  {";
          "    " +:+ Json.quoted "title" +:+ ": " +:+ Json.quoted "stdpp" +:+ ",";
          "    " +:+ Json.quoted "url" +:+ ": "
            +:+ Json.quoted "https://gitlab.mpi-sws.org/iris/stdpp" +:+ ",";
          "    " +:+ Json.quoted "description" +:+ ": "
            +:+ Json.quoted "A library";
          "  }";
          "]" ] |} ] |}
  /\
  exists items t,
    outcome (invoke Search "key" services
               (mkRequest "search" (Some [ ("query", JStr "rocq") ])))
    = Returned {| content := [ {| type := "text"; text := t |} ] |}
    /\ Json.denotes (JArr items) t
    /\ List.length items = 2
    /\ nth_error items 1
       = Some (JObj [ ("title", JStr "stdpp");
                      ("url", JStr "https://gitlab.mpi-sws.org/iris/stdpp");
                      ("description", JStr "A library") ]).
Proof.
  split; [reflexivity|].
  assert (Hne : "rocq" <> "") by discriminate.
  destruct (search_reshapes_results "key" services
              (mkRequest "search" (Some [ ("query", JStr "rocq") ]))
              "rocq" (JNum 5%float) eq_refl eq_refl eq_refl Hne two_results)
    as [_ H].
  - reflexivity.
  - destruct H as (items & t & Hout & Hden & _ & Hlen & Hnth); [discriminate|].
    exists items, t. split; [exact Hout|]. split; [exact Hden|].
    split; [exact Hlen|]. exact (Hnth 1%nat _ eq_refl).
Defined.

(** C9, the code at the failing input. The schema of the search tool
    bounds [count] by 20, and a request with [count] 100 is sent to the
    backing service with [count] 100. *)
Theorem count_above_maximum_is_sent :
  option_map maximum count_property = Some (Some 20%float)
  /\ PrimFloat.ltb 20%float 100%float = true
  /\ invoke Search "key" services
       (mkRequest "search"
          (Some [ ("query", JStr "rocq"); ("count", JNum 100%float) ]))
     = ([ AxiosGet SearchServer.BRAVE_SEARCH_URL
            [ ("X-Subscription-Token", JStr "key") ]
            [ ("q", JStr "rocq"); ("count", JNum 100%float);
              ("text_decorations", JBool false); ("text_format", JStr "plain") ] ],
        Returned
          {| content := [ {| type := "text"; text :=
          Json.lines
            [ "[";
              "  {";
              "    " +:+ Json.quoted "title" +:+ ": " +:+ Json.quoted "Rocq" +:+ ",";
              "    " +:+ Json.quoted "url" +:+ ": "
                +:+ Json.quoted "https://rocq-prover.org" +:+ ",";
              "    " +:+ Json.quoted "description" +:+ ": "
                +:+ Json.quoted "A proof assistant";
              "  },";
              "  {";
              "    " +:+ Json.quoted "title" +:+ ": " +:+ Json.quoted "stdpp" +:+ ",";
              "    " +:+ Json.quoted "url" +:+ ": "
                +:+ Json.quoted "https://gitlab.mpi-sws.org/iris/stdpp" +:+ ",";
              "    " +:+ Json.quoted "description" +:+ ": "
                +:+ Json.quoted "A library";
              "  }";
              "]" ] |} ] |}).
Proof. repeat split. Qed.

(** ** Decoding what the code host encodes *)

Section Decoding.
Import Encoding.
Local Open Scope N_scope.

Lemma below_spec (n : nat) (P : N -> bool) :
  below n P = true -> forall v, v < N.of_nat n -> P v = true.
Proof.
  induction n as [|k IH]; simpl; intros H v Hv; [lia|].
  apply andb_true_iff in H as [Hk H].
  destruct (N.eq_dec v (N.of_nat k)) as [-> | Hne]; [assumption|].
  apply IH; [assumption | lia].
Qed.

Lemma unbase64_char (v : N) :
  v < 64 ->
  Buffer.unbase64 (N_of_ascii (base64_char v)) = Some v /\
  N.eqb (N_of_ascii (base64_char v)) 61 = false /\
  N_of_ascii (base64_char v) < 128.
Proof.
  intros Hv.
  assert (H : below 64 (fun v =>
            match Buffer.unbase64 (N_of_ascii (base64_char v)) with
            | Some u => N.eqb u v
            | None => false
            end && negb (N.eqb (N_of_ascii (base64_char v)) 61)
            && N.ltb (N_of_ascii (base64_char v)) 128) = true)
    by (vm_compute; reflexivity).
  apply below_spec with (v := v) in H; [|exact Hv].
  apply andb_true_iff in H as [H H3]. apply andb_true_iff in H as [H1 H2].
  destruct (Buffer.unbase64 (N_of_ascii (base64_char v))) as [u|];
    [|discriminate].
  apply N.eqb_eq in H1 as ->. split; [reflexivity|].
  split; [now apply negb_true_iff | now apply N.ltb_lt].
Qed.

Lemma sextets_char (v : N) (l : list N) :
  v < 64 ->
  Buffer.sextets (N_of_ascii (base64_char v) :: l) = v :: Buffer.sextets l.
Proof.
  intros Hv. destruct (unbase64_char v Hv) as (H1 & H2 & _).
  simpl. now rewrite H2, H1.
Qed.

Lemma sextets_pad (l : list N) : Buffer.sextets (N_of_ascii pad :: l) = [].
Proof. reflexivity. Qed.

Lemma bytes_arith (x y : N) :
  x < 64 -> y < 64 ->
  Buffer.byte1 x y = x * 4 + y / 16 /\
  Buffer.byte2 x y = (x mod 16) * 16 + y / 4 /\
  Buffer.byte3 x y = (x mod 4) * 64 + y.
Proof.
  intros Hx Hy.
  assert (H : below 64 (fun x => below 64 (fun y =>
            N.eqb (Buffer.byte1 x y) (x * 4 + y / 16)
            && N.eqb (Buffer.byte2 x y) ((x mod 16) * 16 + y / 4)
            && N.eqb (Buffer.byte3 x y) ((x mod 4) * 64 + y))) = true)
    by (vm_compute; reflexivity).
  apply below_spec with (v := x) in H; [|exact Hx].
  apply below_spec with (v := y) in H; [|exact Hy].
  apply andb_true_iff in H as [H H3]. apply andb_true_iff in H as [H1 H2].
  apply N.eqb_eq in H1, H2, H3. auto.
Qed.

Lemma list_ind3 (A : Type) (P : list A -> Prop) :
  P [] -> (forall a, P [a]) -> (forall a b, P [a; b]) ->
  (forall a b c r, P r -> P (a :: b :: c :: r)) ->
  forall l, P l.
Proof.
  intros H0 H1 H2 H3.
  fix IH 1. intros [|a [|b [|c r]]];
    [exact H0 | exact (H1 a) | exact (H2 a b) | exact (H3 a b c r (IH r))].
Qed.

Theorem base64_roundtrip (bs : list N) :
  Forall byte bs ->
  Buffer.bytes_of_sextets
    (Buffer.sextets (Buffer.bytes_of_string (to_base64 bs))) = bs.
Proof.
  unfold Buffer.bytes_of_string, byte.
  induction bs as [| a | a b | a b c r IH] using list_ind3; intros Hbs.
  - reflexivity.
  - inversion_clear Hbs as [|? ? Ha _].
    cbn [to_base64 list_ascii_of_string map].
    rewrite !sextets_char, sextets_pad by lia.
    simpl. destruct (bytes_arith (a / 4) (a mod 4 * 16)) as (-> & _); [lia..|].
    f_equal. lia.
  - inversion_clear Hbs as [|? ? Ha Hbs']. inversion_clear Hbs' as [|? ? Hb _].
    cbn [to_base64 list_ascii_of_string map].
    rewrite !sextets_char, sextets_pad by lia.
    simpl.
    destruct (bytes_arith (a / 4) (a mod 4 * 16 + b / 16)) as (-> & _); [lia..|].
    destruct (bytes_arith (a mod 4 * 16 + b / 16) (b mod 16 * 4))
      as (_ & -> & _); [lia..|].
    f_equal; [lia|]. f_equal. lia.
  - inversion_clear Hbs as [|? ? Ha Hbs']. inversion_clear Hbs' as [|? ? Hb Hbs].
    inversion_clear Hbs as [|? ? Hc Hr].
    cbn [to_base64 list_ascii_of_string map].
    rewrite !sextets_char by lia.
    cbn [Buffer.bytes_of_sextets]. rewrite (IH Hr).
    destruct (bytes_arith (a / 4) (a mod 4 * 16 + b / 16)) as (-> & _); [lia..|].
    destruct (bytes_arith (a mod 4 * 16 + b / 16) (b mod 16 * 4 + c / 64))
      as (_ & -> & _); [lia..|].
    destruct (bytes_arith (b mod 16 * 4 + c / 64) (c mod 64))
      as (_ & _ & ->); [lia..|].
    f_equal; [lia|]. f_equal; [lia|]. f_equal. lia.
Qed.

(** The encoder writes characters of one byte and one code unit. *)
Lemma to_base64_ascii (bs : list N) :
  Forall byte bs ->
  Forall (fun b => b < 128) (Buffer.bytes_of_string (to_base64 bs)).
Proof.
  unfold Buffer.bytes_of_string, byte.
  induction bs as [| a | a b | a b c r IH] using list_ind3; intros Hbs.
  - constructor.
  - inversion_clear Hbs as [|? ? Ha _].
    cbn [to_base64 list_ascii_of_string map].
    repeat constructor; try apply unbase64_char; try reflexivity; lia.
  - inversion_clear Hbs as [|? ? Ha Hbs']. inversion_clear Hbs' as [|? ? Hb _].
    cbn [to_base64 list_ascii_of_string map].
    repeat constructor; try apply unbase64_char; try reflexivity; lia.
  - inversion_clear Hbs as [|? ? Ha Hbs']. inversion_clear Hbs' as [|? ? Hb Hbs].
    inversion_clear Hbs as [|? ? Hc Hr].
    cbn [to_base64 list_ascii_of_string map].
    repeat (constructor; [apply unbase64_char; lia|]). exact (IH Hr).
Qed.

(** On such characters the decoder sees the bytes of the string. *)
Lemma low_bytes_ascii (s : string) :
  Forall (fun b => b < 128) (Buffer.bytes_of_string s) ->
  Buffer.low_bytes s = Buffer.bytes_of_string s.
Proof.
  unfold Buffer.low_bytes. generalize (Buffer.bytes_of_string s) as l.
  induction 1 as [|b l Hb _ IH]; [reflexivity|].
  cbn [Buffer.code_points].
  replace (b <? 192) with true by (symmetry; apply N.ltb_lt; lia).
  cbn [flat_map]. unfold Buffer.code_units at 1.
  replace (b <? 65536) with true by (symmetry; apply N.ltb_lt; lia).
  cbn [app map]. rewrite IH. f_equal. apply N.mod_small. lia.
Qed.

Ltac decide_tests :=
  repeat match goal with
    | |- context [(?a <=? ?b)%N] =>
        first [ replace (a <=? b)%N with true by (symmetry; apply N.leb_le; lia)
              | replace (a <=? b)%N with false by (symmetry; apply N.leb_gt; lia) ]
    | |- context [(?a <? ?b)%N] =>
        first [ replace (a <? b)%N with true by (symmetry; apply N.ltb_lt; lia)
              | replace (a <? b)%N with false by (symmetry; apply N.ltb_ge; lia) ]
    | |- context [(?a =? ?b)%N] =>
        first [ replace (a =? b)%N with true by (symmetry; apply N.eqb_eq; lia)
              | replace (a =? b)%N with false by (symmetry; apply N.eqb_neq; lia) ]
    end.

Ltac utf8_go :=
  repeat (cbn -[N.add N.div N.modulo N.leb N.ltb N.eqb N.mul];
          unfold Buffer.utf8_lead; progress decide_tests).

Lemma utf8_run_encode (cp : N) (rest : list N) :
  scalar_value cp = true ->
  Buffer.utf8_run Buffer.utf8_idle (utf8_encode cp ++ rest)
  = utf8_encode cp ++ Buffer.utf8_run Buffer.utf8_idle rest.
Proof.
  unfold scalar_value. intros Hcp.
  apply orb_true_iff in Hcp.
  rewrite andb_true_iff, !N.ltb_lt, N.leb_le in Hcp.
  unfold utf8_encode.
  destruct (N.ltb_spec cp 128); [|destruct (N.ltb_spec cp 2048);
    [|destruct (N.ltb_spec cp 65536)]].
  - utf8_go. reflexivity.
  - utf8_go. reflexivity.
  - destruct (N.eq_dec (cp / 4096) 0) as [E0|E0];
      [|destruct (N.eq_dec (cp / 4096) 13) as [E13|E13]];
      utf8_go; reflexivity.
  - destruct (N.eq_dec (cp / 262144) 0) as [E0|E0];
      [|destruct (N.eq_dec (cp / 262144) 4) as [E4|E4]];
      utf8_go; reflexivity.
Qed.

Theorem utf8_text_unchanged (cps : list N) :
  scalar_values cps ->
  Buffer.utf8_run Buffer.utf8_idle (utf8_text cps) = utf8_text cps.
Proof.
  induction 1 as [|cp cps Hcp _ IH]; [reflexivity|].
  unfold utf8_text in *. simpl. now rewrite (utf8_run_encode cp _ Hcp), IH.
Qed.

Lemma utf8_encode_bytes (cp : N) :
  scalar_value cp = true -> Forall byte (utf8_encode cp).
Proof.
  unfold scalar_value, utf8_encode, byte. intros Hcp.
  apply orb_true_iff in Hcp.
  rewrite andb_true_iff, !N.ltb_lt, N.leb_le in Hcp.
  destruct (N.ltb_spec cp 128); [|destruct (N.ltb_spec cp 2048);
    [|destruct (N.ltb_spec cp 65536)]];
    repeat constructor; lia.
Qed.

Lemma utf8_text_bytes (cps : list N) :
  scalar_values cps -> Forall byte (utf8_text cps).
Proof.
  induction 1 as [|cp cps Hcp _ IH]; [constructor|].
  unfold utf8_text in *. simpl. apply Forall_app. split; [|exact IH].
  now apply utf8_encode_bytes.
Qed.

Lemma broken_ascii (s s' : string) :
  broken s s' ->
  Forall (fun b => b < 128) (Buffer.bytes_of_string s) ->
  Forall (fun b => b < 128) (Buffer.bytes_of_string s').
Proof.
  unfold Buffer.bytes_of_string.
  induction 1 as [| c s s' _ IH | s s' _ IH]; cbn [list_ascii_of_string map];
    intros H.
  - constructor.
  - inversion_clear H as [|? ? Hc Hs]. constructor; auto.
  - constructor; [reflexivity | auto].
Qed.

Lemma sextets_broken (s s' : string) :
  broken s s' ->
  Buffer.sextets (Buffer.bytes_of_string s')
  = Buffer.sextets (Buffer.bytes_of_string s).
Proof.
  unfold Buffer.bytes_of_string.
  induction 1 as [| c s s' _ IH | s s' _ IH]; cbn [list_ascii_of_string map];
    [reflexivity| |exact IH].
  cbn [Buffer.sextets]. now rewrite IH.
Qed.

Lemma broken_refl (s : string) : broken s s.
Proof. induction s; now constructor. Qed.

(** The decoder of [read_file] gives back the bytes that were encoded,
    however the encoded content is wrapped into lines. *)
Theorem decode_wrapped_bytes (bs : list N) (encoded : string) :
  Forall byte bs ->
  broken (to_base64 bs) encoded ->
  Buffer.from_base64 encoded = bs.
Proof.
  intros Hbs Hbroken. unfold Buffer.from_base64.
  rewrite low_bytes_ascii
    by exact (broken_ascii _ _ Hbroken (to_base64_ascii bs Hbs)).
  rewrite (sextets_broken _ _ Hbroken). now apply base64_roundtrip.
Qed.

(** And the text read from them is the text that was encoded. *)
Theorem decode_wrapped_text (cps : list N) (encoded : string) :
  scalar_values cps ->
  broken (to_base64 (utf8_text cps)) encoded ->
  Buffer.toString_utf8 (Buffer.from_base64 encoded)
  = string_of_list_ascii (map ascii_of_N (utf8_text cps)).
Proof.
  intros Hcps Hbroken. unfold Buffer.toString_utf8.
  rewrite (decode_wrapped_bytes _ _ (utf8_text_bytes _ Hcps) Hbroken).
  now rewrite (utf8_text_unchanged _ Hcps).
Qed.

End Decoding.

(** ** Reading a file *)

Lemma github_read_file (w : World) (request : CallToolRequest) :
  name request = "read_file" ->
  GitHubServer.guarded w request = GitHubServer.read_file w request.
Proof. unfold GitHubServer.guarded. now intros ->. Qed.

Lemma string_content_single (payload : JsObject) (encoded : string) :
  get "content" payload = JStr encoded ->
  GitHubServer.string_content (Single payload) = Some encoded.
Proof.
  intros H. simpl. now rewrite (get_string_present _ _ _ H), H.
Qed.

Lemma string_content_other (payload : JsObject) :
  typeof (get "content" payload) <> "string" ->
  GitHubServer.string_content (Single payload) = None.
Proof.
  intros H. simpl. destruct (has "content" payload); [|reflexivity].
  destruct (get "content" payload); try reflexivity. now elim H.
Qed.

(** C6. When the backing response is a single payload whose [content]
    is a string, the text returned by [read_file] is that string decoded
    from base64 and read as UTF-8; in particular, when the content is the
    base64 encoding of a UTF-8 text (wrapped into lines or not), the text
    returned is exactly that text, byte for byte. When the response is a
    directory listing, or a single payload without string content, the
    call fails with InternalError. *)
Theorem read_file_decodes_content
    (key : string) (w : World) (request : CallToolRequest) (args : JsObject)
    (data : RepoContent) :
  name request = "read_file" ->
  arguments request = Some args ->
  (forall owner repo path ref,
     repos_getContent w owner repo path ref = inr data) ->
  (forall payload encoded,
     data = Single payload ->
     get "content" payload = JStr encoded ->
     outcome (invoke GitHub key w request)
     = Returned {| content := [ {| type := "text"; text :=
         Buffer.toString_utf8 (Buffer.from_base64 encoded) |} ] |})
  /\
  (forall payload encoded cps,
     data = Single payload ->
     get "content" payload = JStr encoded ->
     Encoding.scalar_values cps ->
     Encoding.broken (Encoding.to_base64 (Encoding.utf8_text cps)) encoded ->
     outcome (invoke GitHub key w request)
     = Returned {| content := [ {| type := "text"; text :=
         string_of_list_ascii (map ascii_of_N (Encoding.utf8_text cps)) |} ] |})
  /\
  (forall entries,
     data = Directory entries ->
     outcome (invoke GitHub key w request)
     = Threw (McpError InternalError "Invalid response format from GitHub API"))
  /\
  (forall payload,
     data = Single payload ->
     typeof (get "content" payload) <> "string" ->
     outcome (invoke GitHub key w request)
     = Threw (McpError InternalError "Invalid response format from GitHub API")).
Proof.
  intros Hname Hargs Hworld. simpl. unfold GitHubServer.CallTool.
  rewrite (github_read_file w request Hname).
  unfold GitHubServer.read_file, GitHubServer.destructure.
  rewrite Hargs, Hworld. cbv [bind perform].
  repeat split.
  - intros payload encoded -> Hcontent.
    now rewrite (string_content_single _ _ Hcontent).
  - intros payload encoded cps -> Hcontent Hcps Hbroken.
    rewrite (string_content_single _ _ Hcontent). simpl.
    now rewrite (decode_wrapped_text cps encoded Hcps Hbroken).
  - now intros entries ->.
  - intros payload -> Hcontent.
    now rewrite (string_content_other _ Hcontent).
Qed.

Lemma read_file_decodes_content_witness :
  outcome (invoke GitHub "" services
             (mkRequest "read_file"
                (Some [ ("owner", JStr "vupham90"); ("repo", JStr "mcp");
                        ("path", JStr "README.md") ])))
  = Returned {| content := [ {| type := "text"; text :=
      "hello world" +:+ String "010"%char "" |} ] |}
  /\
  outcome (invoke GitHub ""
             (answering two_results wrapped_note one_match sample_mr sample_diffs)
             (mkRequest "read_file"
                (Some [ ("owner", JStr "vupham90"); ("repo", JStr "mcp");
                        ("path", JStr "NOTE.md") ])))
  = Returned {| content := [ {| type := "text"; text :=
      String "h" (String "195" (String "169" "llo")) |} ] |}.
Proof.
  split.
  - refine (proj1 (proj2 (read_file_decodes_content "" services
                     (mkRequest "read_file"
                        (Some [ ("owner", JStr "vupham90"); ("repo", JStr "mcp");
                                ("path", JStr "README.md") ]))
                     _ readme eq_refl eq_refl _))
              _ _ hello_world eq_refl eq_refl _ _).
    + reflexivity.
    + repeat constructor.
    + apply broken_refl.
  - refine (proj1 (proj2 (read_file_decodes_content ""
                     (answering two_results wrapped_note one_match
                        sample_mr sample_diffs)
                     (mkRequest "read_file"
                        (Some [ ("owner", JStr "vupham90"); ("repo", JStr "mcp");
                                ("path", JStr "NOTE.md") ]))
                     _ wrapped_note eq_refl eq_refl _))
              _ _ [104; 233; 108; 108; 111]%N eq_refl eq_refl _ _).
    + reflexivity.
    + repeat constructor.
    + cbv. repeat constructor.
Defined.

(** ** Merge requests *)





(** ** Code search *)

Lemma qualifier_truthy (v : JsVal) :
  optional_string v = true ->
  match qualifier v with
  | Some s => truthy v = true /\ ToString v = Some s
  | None => truthy v = false
  end.
Proof.
  destruct v; try discriminate; intros _; simpl; [reflexivity|].
  destruct (String.eqb s ""); simpl; auto.
Qed.

(** The query built from arguments of the declared types. *)
Lemma build_query_strings (query : string) (language owner repo : JsVal) :
  optional_string language = true ->
  optional_string owner = true ->
  optional_string repo = true ->
  GitHubServer.build_query (JStr query) language owner repo
  = Some (JStr (expected_query query
                  (qualifier language) (qualifier owner) (qualifier repo))).
Proof.
  intros Hl Ho Hr.
  apply qualifier_truthy in Hl, Ho, Hr.
  unfold GitHubServer.build_query, GitHubServer.plus_assign,
    GitHubServer.template1, GitHubServer.template2, expected_query, plus_string.
  destruct (qualifier language) as [l|]; [destruct Hl as [-> ->] | rewrite Hl];
    (destruct (qualifier owner) as [o|]; [destruct Ho as [-> ->] | rewrite Ho]);
    (destruct (qualifier repo) as [r|]; [destruct Hr as [-> ->] | rewrite Hr]);
    reflexivity.
Qed.

Lemma readable_code_match (found : list CodeSearchItem) :
  Forall (fun item =>
            Json.readable (get "full_name" (repository item))
            /\ Json.readable (item_path item)
            /\ Json.readable (html_url item)) found ->
  Json.readable (JArr (map GitHubServer.code_match found)).
Proof.
  intros H. apply readable_array.
  induction H as [|item l (H1 & H2 & H3) _ IH]; constructor; [|exact IH].
  simpl. auto.
Qed.

(** C8, as amended. The query string sent to the code-search endpoint is
    the user query, followed by [ language:<language>] when language is
    supplied as a non-empty string, and then by [ repo:<owner>/<repo>]
    when owner and repo are both supplied as non-empty strings, or by
    [ user:<owner>] when owner is and repo is not; an argument that is
    absent or the empty string adds no qualifier. One call is issued,
    and the i-th match returned holds the full name of the repository,
    the path and the url of the i-th backing item; when the backing
    service defines these, the text returned is a JSON text that denotes
    the array of the matches. *)
Theorem search_code_builds_query
    (key : string) (w : World) (request : CallToolRequest) (args : JsObject)
    (query : string) (found : list CodeSearchItem) :
  name request = "search_code" ->
  arguments request = Some args ->
  get "query" args = JStr query ->
  optional_string (get "language" args) = true ->
  optional_string (get "owner" args) = true ->
  optional_string (get "repo" args) = true ->
  (forall q per_page, search_code w q per_page = inr found) ->
  exists matches,
    invoke GitHub key w request
    = ([ SearchCode
           (JStr (expected_query query
                    (qualifier (get "language" args))
                    (qualifier (get "owner" args))
                    (qualifier (get "repo" args))))
           (JNum 10%float) ],
       Returned {| content := [ {| type := "text"; text :=
         JSON_stringify (JArr matches) 2 |} ] |})
    /\ (Forall (fun item =>
                  Json.readable (get "full_name" (repository item))
                  /\ Json.readable (item_path item)
                  /\ Json.readable (html_url item)) found ->
        Json.denotes (JArr matches) (JSON_stringify (JArr matches) 2))
    /\ List.length matches = List.length found
    /\ forall i item,
         nth_error found i = Some item ->
         nth_error matches i
         = Some (JObj [ ("repository", get "full_name" (repository item));
                        ("path", item_path item);
                        ("url", html_url item) ]).
Proof.
  intros Hname Hargs Hquery Hl Ho Hr Hworld.
  exists (map GitHubServer.code_match found). split; [|split; [|split]].
  - simpl. unfold GitHubServer.CallTool, GitHubServer.guarded.
    rewrite Hname. simpl String.eqb. cbv iota.
    unfold GitHubServer.search_code_tool, GitHubServer.destructure.
    rewrite Hargs, Hquery, (build_query_strings _ _ _ _ Hl Ho Hr).
    cbn [convert]. rewrite bind_ret, Hworld. reflexivity.
  - intros Hfound. apply stringify_denotes. now apply readable_code_match.
  - apply length_map.
  - intros i item Hi. rewrite nth_error_map, Hi. reflexivity.
Qed.

Lemma search_code_builds_query_witness :
  invoke GitHub "" services
    (mkRequest "search_code"
       (Some [ ("query", JStr "try_catch"); ("language", JStr "typescript");
               ("owner", JStr "vupham90"); ("repo", JStr "mcp") ]))
  = ([ SearchCode (JStr "try_catch language:typescript repo:vupham90/mcp")
         (JNum 10%float) ],
     Returned {| content := [ {| type := "text"; text :=
       Json.lines
         [ "[";
           "  {";
           "    " +:+ Json.quoted "repository" +:+ ": "
             +:+ Json.quoted "rocq-prover/rocq" +:+ ",";
           "    " +:+ Json.quoted "path" +:+ ": "
             +:+ Json.quoted "kernel/reduction.ml" +:+ ",";
           "    " +:+ Json.quoted "url" +:+ ": "
             +:+ Json.quoted "https://github.com/rocq-prover/rocq/blob/master/kernel/reduction.ml";
           "  }";
           "]" ] |} ] |})
  /\
  exists matches,
    invoke GitHub "" services
      (mkRequest "search_code"
         (Some [ ("query", JStr "try_catch"); ("language", JStr "typescript");
                 ("owner", JStr "vupham90"); ("repo", JStr "mcp") ]))
    = ([ SearchCode (JStr "try_catch language:typescript repo:vupham90/mcp")
           (JNum 10%float) ],
       Returned {| content := [ {| type := "text"; text :=
         JSON_stringify (JArr matches) 2 |} ] |})
    /\ Json.denotes (JArr matches) (JSON_stringify (JArr matches) 2)
    /\ List.length matches = 1
    /\ nth_error matches 0
       = Some (JObj [ ("repository", JStr "rocq-prover/rocq");
                      ("path", JStr "kernel/reduction.ml");
                      ("url", JStr "https://github.com/rocq-prover/rocq/blob/master/kernel/reduction.ml") ]).
Proof.
  split; [reflexivity|].
  destruct (search_code_builds_query "" services
              (mkRequest "search_code"
                 (Some [ ("query", JStr "try_catch"); ("language", JStr "typescript");
                         ("owner", JStr "vupham90"); ("repo", JStr "mcp") ]))
              _ "try_catch" one_match eq_refl eq_refl eq_refl eq_refl eq_refl eq_refl)
    as (matches & Hout & Hden & Hlen & Hnth); [reflexivity|].
  exists matches. split; [exact Hout|]. split; [|split].
  - apply Hden. repeat constructor.
  - exact Hlen.
  - exact (Hnth 0%nat _ eq_refl).
Defined.

(** C8 as stated fails: a language supplied as the empty string adds no
    qualifier to the query. *)
Lemma search_code_counterexample :
  supplies (mkRequest "search_code"
              (Some [ ("query", JStr "try_catch"); ("language", JStr "") ]))
           "language" = true
  /\
  calls (invoke GitHub "" services
           (mkRequest "search_code"
              (Some [ ("query", JStr "try_catch"); ("language", JStr "") ])))
  = [ SearchCode (JStr "try_catch") (JNum 10%float) ].
Proof. split; reflexivity. Qed.

End Properties.

(* ===================================================================== *)
(** * Further properties of the handlers *)
(* ===================================================================== *)

Module CoverageProperties.
Import Js Mcp Dispatch Coverage Properties.

(** Case analysis on the innermost scrutinee of the goal. *)
Ltac goal_cases :=
  repeat match goal with
    | |- context [match ?x with _ => _ end] =>
        lazymatch x with
        | context [match _ with _ => _ end] => fail
        | _ => destruct x
        end
    end.

Ltac unfold_handlers :=
  cbv [invoke outcome calls fst snd bind try_catch perform ret throw convert
       SearchServer.CallTool SearchServer.guarded SearchServer.on_error
       GitHubServer.CallTool GitHubServer.guarded GitHubServer.on_error
       GitHubServer.read_file GitHubServer.search_code_tool
       GitHubServer.list_repository_content GitHubServer.destructure
       GitLabServer.CallTool GitLabServer.guarded GitLabServer.on_error
       GitLabServer.validateGetMergeRequestContentArgs].

(** ** Listing a directory *)





(** ** Errors and calls *)

(** X2. Whatever the request and whatever the backing services answer or
    throw, an error that leaves the GitHub or the GitLab adapter is an
    McpError. So is an error that leaves the search adapter, with one
    exception: the conversions of the query and of the count stand
    before the [try] block, so when one of them throws (an argument that
    is an object with an own property [toString], or an array that holds
    one) the [TypeError] leaves the handler as it is, and no call was
    issued. *)
Theorem every_error_is_tagged
    (a : Adapter) (key : string) (w : World) (request : CallToolRequest)
    (e : Thrown) :
  outcome (invoke a key w request) = Threw e ->
  (exists code message, e = McpError code message)
  \/ (a = Search
      /\ name request = "search"
      /\ (SearchServer.query_of request = None
          \/ SearchServer.count_of request = None)
      /\ invoke a key w request
         = ([], Threw (Error "Cannot convert object to primitive value"))).
Proof.
  intros H. destruct a.
  - revert H. cbn [invoke]. rewrite search_call_cases.
    destruct (String.eqb (name request) "search") eqn:Hname; cbn [negb];
      [|cbv [outcome snd throw]; intros [= <-]; left; eauto].
    apply String.eqb_eq in Hname.
    destruct (SearchServer.query_of request) as [query|];
      [|intros _; right; auto 6].
    destruct (SearchServer.count_of request) as [count|];
      [|intros _; right; auto 6].
    destruct (truthy (JStr query)); cbn [negb];
      [|cbv [outcome snd throw]; intros [= <-]; left; eauto].
    unfold SearchServer.guarded, SearchServer.on_error.
    cbv [outcome snd bind try_catch perform ret throw].
    goal_cases; intros [= <-]; left; eauto.
  - left. revert H. unfold_handlers. cbv [is_McpError].
    goal_cases; intros [= <-]; eauto.
  - left. revert H. unfold_handlers. cbv [is_McpError].
    goal_cases; intros [= <-]; eauto.
Qed.

Lemma every_error_is_tagged_witness :
  ((exists code message,
      McpError InternalError "GitLab API error: getaddrinfo ENOTFOUND"
      = McpError code message)
   \/ (GitLab = Search
       /\ "get_merge_request_content" = "search"
       /\ (SearchServer.query_of
             (mkRequest "get_merge_request_content"
                (Some [ ("project_id", JStr "group/app");
                        ("merge_request_iid", JNum 7%float) ])) = None
           \/ SearchServer.count_of
                (mkRequest "get_merge_request_content"
                   (Some [ ("project_id", JStr "group/app");
                           ("merge_request_iid", JNum 7%float) ])) = None)
       /\ invoke GitLab "" offline
            (mkRequest "get_merge_request_content"
               (Some [ ("project_id", JStr "group/app");
                       ("merge_request_iid", JNum 7%float) ]))
          = ([], Threw (Error "Cannot convert object to primitive value"))))
  /\
  ((exists code message,
      Error "Cannot convert object to primitive value" = McpError code message)
   \/ (Search = Search
       /\ "search" = "search"
       /\ (SearchServer.query_of
             (mkRequest "search"
                (Some [ ("query", JObj [ ("toString", JNum 1%float) ]) ])) = None
           \/ SearchServer.count_of
                (mkRequest "search"
                   (Some [ ("query", JObj [ ("toString", JNum 1%float) ]) ])) = None)
       /\ invoke Search "key" services
            (mkRequest "search"
               (Some [ ("query", JObj [ ("toString", JNum 1%float) ]) ]))
          = ([], Threw (Error "Cannot convert object to primitive value")))).
Proof.
  split.
  - exact (every_error_is_tagged GitLab "" offline
             (mkRequest "get_merge_request_content"
                (Some [ ("project_id", JStr "group/app");
                        ("merge_request_iid", JNum 7%float) ]))
             _ eq_refl).
  - exact (every_error_is_tagged Search "key" services
             (mkRequest "search"
                (Some [ ("query", JObj [ ("toString", JNum 1%float) ]) ]))
             _ eq_refl).
Defined.

(** X3. One invocation issues at most one outbound call in the search
    and GitHub adapters, and at most two in the GitLab adapter. *)
Theorem calls_are_bounded
    (a : Adapter) (key : string) (w : World) (request : CallToolRequest) :
  List.length (calls (invoke a key w request)) <= call_bound a.
Proof.
  destruct a; unfold_handlers; goal_cases; simpl; lia.
Qed.

(** X4. A result is returned only after every backing call of the tool
    was issued: one in the search and GitHub adapters, two in the GitLab
    adapter. No adapter answers a request from anything but its backing
    service. *)
Theorem success_needs_every_call
    (a : Adapter) (key : string) (w : World) (request : CallToolRequest)
    (r : CallToolResult) :
  outcome (invoke a key w request) = Returned r ->
  List.length (calls (invoke a key w request)) = call_bound a.
Proof.
  destruct a; unfold_handlers; goal_cases; simpl;
    solve [discriminate | reflexivity].
Qed.

Lemma success_needs_every_call_witness :
  List.length
    (calls (invoke GitLab "" services
              (mkRequest "get_merge_request_content"
                 (Some [ ("project_id", JStr "group/app");
                         ("merge_request_iid", JNum 7%float) ]))))
  = 2.
Proof.
  exact (success_needs_every_call GitLab "" services
           (mkRequest "get_merge_request_content"
              (Some [ ("project_id", JStr "group/app");
                      ("merge_request_iid", JNum 7%float) ]))
           _ eq_refl).
Defined.

(** ** Merge requests *)



Lemma typeof_string (v : JsVal) :
  String.eqb (typeof v) "string" = true -> exists s, v = JStr s.
Proof. destruct v; try discriminate. eauto. Qed.

Lemma typeof_number (v : JsVal) :
  String.eqb (typeof v) "number" = true -> exists x, v = JNum x.
Proof. destruct v; try discriminate. eauto. Qed.

(** X6. The validator of the GitLab adapter issues no call and accepts
    exactly the objects whose [project_id] is a string and whose
    [merge_request_iid] is a number; every other value (a primitive,
    [null], an array, an object with a field missing or of another type)
    is refused with InvalidParams. *)
Theorem validator_accepts_typed_bags (args : JsVal) :
  calls (GitLabServer.validateGetMergeRequestContentArgs args) = []
  /\
  ((merge_request_args args
    /\ outcome (GitLabServer.validateGetMergeRequestContentArgs args)
       = Returned tt)
   \/
   (~ merge_request_args args
    /\ exists m,
         outcome (GitLabServer.validateGetMergeRequestContentArgs args)
         = Threw (McpError InvalidParams m))).
Proof.
  unfold GitLabServer.validateGetMergeRequestContentArgs, merge_request_args.
  destruct args as [| | b | x | s | items | o];
    try (split; [reflexivity|]; right; split;
         [intros (o' & s' & x' & [=] & _) | simpl; eauto]).
  cbn [typeof member negb orb String.eqb Ascii.eqb Bool.eqb].
  destruct (String.eqb (typeof (get "project_id" o)) "string") eqn:Hp.
  - destruct (String.eqb (typeof (get "merge_request_iid" o)) "number") eqn:Hi.
    + split; [reflexivity|]. left. split; [|reflexivity].
      destruct (typeof_string _ Hp) as [s Hs].
      destruct (typeof_number _ Hi) as [x Hx]. eauto 6.
    + split; [reflexivity|]. right. split; [|simpl; eauto].
      intros (o' & s' & x' & [= <-] & _ & Hx). rewrite Hx in Hi. discriminate.
  - split; [reflexivity|]. right. split; [|simpl; eauto].
    intros (o' & s' & x' & [= <-] & Hs & _). rewrite Hs in Hp. discriminate.
Qed.

(** X7. For [get_merge_request_content] the GitLab adapter issues no
    outbound call unless the argument bag is present and well typed: an
    absent bag, a missing field and a field of another type (a numeric
    project, a merge-request number given as a string) all end in
    InvalidParams before the backing service is reached. *)
Theorem ill_typed_bag_reaches_no_service
    (key : string) (w : World) (request : CallToolRequest) :
  name request = "get_merge_request_content" ->
  (forall args, arguments request = Some args -> ~ merge_request_args (JObj args)) ->
  exists m, invoke GitLab key w request = ([], Threw (McpError InvalidParams m)).
Proof.
  intros Hname Hbad. simpl. unfold GitLabServer.CallTool.
  destruct (arguments request) as [args|]; [|simpl; eauto].
  specialize (Hbad args eq_refl).
  unfold GitLabServer.guarded. rewrite Hname. simpl String.eqb. cbv iota.
  unfold GitLabServer.validateGetMergeRequestContentArgs.
  cbn [typeof member negb orb String.eqb Ascii.eqb Bool.eqb].
  destruct (String.eqb (typeof (get "project_id" args)) "string") eqn:Hp;
    [|simpl; eauto].
  destruct (String.eqb (typeof (get "merge_request_iid" args)) "number") eqn:Hi;
    [|simpl; eauto].
  destruct (typeof_string _ Hp) as [s Hs].
  destruct (typeof_number _ Hi) as [x Hx].
  elim Hbad. exists args, s, x. auto.
Qed.

Lemma ill_typed_bag_reaches_no_service_witness :
  exists m,
    invoke GitLab "" services
      (mkRequest "get_merge_request_content"
         (Some [ ("project_id", JStr "group/app");
                 ("merge_request_iid", JStr "7") ]))
    = ([], Threw (McpError InvalidParams m)).
Proof.
  refine (ill_typed_bag_reaches_no_service "" services
            (mkRequest "get_merge_request_content"
               (Some [ ("project_id", JStr "group/app");
                       ("merge_request_iid", JStr "7") ]))
            eq_refl _).
  intros args [= <-] (o & s & x & [= <-] & _ & Hx). discriminate Hx.
Defined.

(** ** Web search: what is checked and what is sent *)

(** The calls of the search handler, by cases on its conversions and
    its two checks. *)
Lemma search_calls (key : string) (w : World) (request : CallToolRequest) :
  calls (invoke Search key w request)
  = match SearchServer.query_of request, SearchServer.count_of request with
    | Some query, Some count =>
        if String.eqb (name request) "search" && truthy (JStr query)
        then [ AxiosGet SearchServer.BRAVE_SEARCH_URL
                 [ ("X-Subscription-Token", JStr key) ]
                 [ ("q", JStr query); ("count", count);
                   ("text_decorations", JBool false);
                   ("text_format", JStr "plain") ] ]
        else []
    | _, _ => []
    end.
Proof.
  destruct (String.eqb (name request) "search") eqn:Hname.
  - destruct (SearchServer.query_of request) as [query|] eqn:Hquery;
      [destruct (SearchServer.count_of request) as [count|] eqn:Hcount|].
    + destruct (String.eqb_spec query "") as [-> | Hne].
      * cbn [invoke]. rewrite search_call_cases, Hname, Hquery, Hcount.
        reflexivity.
      * apply String.eqb_eq in Hname.
        rewrite (search_issues_one_call key w request query count
                   Hname Hquery Hcount Hne).
        cbn [truthy andb]. apply String.eqb_neq in Hne. now rewrite Hne.
    + cbn [invoke]. rewrite search_call_cases, Hname, Hquery, Hcount.
      reflexivity.
    + cbn [invoke]. rewrite search_call_cases, Hname, Hquery. reflexivity.
  - cbn [invoke]. rewrite search_call_cases, Hname. cbn [negb andb].
    now destruct (SearchServer.query_of request),
      (SearchServer.count_of request).
Qed.

(** X8. What the search tool does with its query. When [String(query)]
    or [Number(count)] throws, the [TypeError] leaves the handler and no
    call is issued. Otherwise the request is refused exactly when the
    string form of the query is empty, and then with InvalidParams and
    no call; whenever that string is not empty one call is issued. The
    test is on [String(query)], so a query that is omitted or [null] is
    not refused: it is searched for as the text [undefined] or [null]. *)
Theorem search_refuses_only_empty_text
    (key : string) (w : World) (request : CallToolRequest) :
  name request = "search" ->
  match SearchServer.query_of request, SearchServer.count_of request with
  | Some query, Some count =>
      (invoke Search key w request
       = ([], Threw (McpError InvalidParams "Search query is required"))
       <-> query = "")
      /\ (query <> "" ->
          calls (invoke Search key w request)
          = [ AxiosGet SearchServer.BRAVE_SEARCH_URL
                [ ("X-Subscription-Token", JStr key) ]
                [ ("q", JStr query); ("count", count);
                  ("text_decorations", JBool false);
                  ("text_format", JStr "plain") ] ])
  | _, _ =>
      invoke Search key w request
      = ([], Threw (Error "Cannot convert object to primitive value"))
  end
  /\ (get_opt "query" (arguments request) = JUndefined ->
      SearchServer.query_of request = Some "undefined")
  /\ (get_opt "query" (arguments request) = JNull ->
      SearchServer.query_of request = Some "null").
Proof.
  intros Hname. split; [|split].
  - destruct (SearchServer.query_of request) as [query|] eqn:Hquery;
      [destruct (SearchServer.count_of request) as [count|] eqn:Hcount|].
    + split; [split|].
      * intros H. destruct (String.eqb_spec query "") as [E | E]; [exact E|].
        pose proof (search_issues_one_call key w request query count
                      Hname Hquery Hcount E) as Hcalls.
        rewrite H in Hcalls. discriminate Hcalls.
      * intros ->. cbn [invoke].
        rewrite search_call_cases, Hname, Hquery, Hcount. reflexivity.
      * intros E.
        exact (search_issues_one_call key w request query count
                 Hname Hquery Hcount E).
    + cbn [invoke]. rewrite search_call_cases, Hname, Hquery, Hcount.
      reflexivity.
    + cbn [invoke]. rewrite search_call_cases, Hname, Hquery. reflexivity.
  - unfold SearchServer.query_of. now intros ->.
  - unfold SearchServer.query_of. now intros ->.
Qed.

Lemma search_refuses_only_empty_text_witness :
  invoke Search "key" services (mkRequest "search" (Some [ ("query", JArr []) ]))
  = ([], Threw (McpError InvalidParams "Search query is required"))
  /\
  invoke Search "key" services
    (mkRequest "search"
       (Some [ ("query", JStr "rocq");
               ("count", JObj [ ("toString", JNum 1%float) ]) ]))
  = ([], Threw (Error "Cannot convert object to primitive value")).
Proof.
  split.
  - exact (proj2 (proj1 (proj1 (search_refuses_only_empty_text "key" services
                                  (mkRequest "search" (Some [ ("query", JArr []) ]))
                                  eq_refl))) eq_refl).
  - exact (proj1 (search_refuses_only_empty_text "key" services
                    (mkRequest "search"
                       (Some [ ("query", JStr "rocq");
                               ("count", JObj [ ("toString", JNum 1%float) ]) ]))
                    eq_refl)).
Defined.

(** X9. Whatever the request, the [count] sent to the search service is
    a number and is neither zero nor NaN: a count that is omitted, zero
    or not numeric is replaced by 5, and every other number is sent as it
    is. *)
Theorem search_count_is_usable
    (key : string) (w : World) (request : CallToolRequest) (c : Call) :
  In c (calls (invoke Search key w request)) ->
  exists x y,
    count_param c = JNum x
    /\ JsNumber.truthy x = true
    /\ ToNumber (get_opt "count" (arguments request)) = Some y
    /\ x = (if JsNumber.truthy y then y else 5%float).
Proof.
  rewrite search_calls. unfold SearchServer.count_of.
  destruct (SearchServer.query_of request) as [query|]; [|intros []].
  destruct (ToNumber (get_opt "count" (arguments request))) as [y|];
    [|intros []].
  cbn [option_map].
  destruct (String.eqb (name request) "search" && truthy (JStr query));
    [|intros []].
  intros [<- | []]. simpl. unfold or_else. simpl.
  destruct (JsNumber.truthy y) eqn:E.
  - exists y, y. rewrite E. auto.
  - exists 5%float, y. rewrite E. auto.
Qed.

Lemma search_count_is_usable_witness :
  exists x y,
    JNum 5%float = JNum x /\ JsNumber.truthy x = true
    /\ ToNumber (JStr "many") = Some y
    /\ x = (if JsNumber.truthy y then y else 5%float).
Proof.
  refine (search_count_is_usable "key" services
            (mkRequest "search"
               (Some [ ("query", JStr "rocq"); ("count", JStr "many") ]))
            (AxiosGet SearchServer.BRAVE_SEARCH_URL
               [ ("X-Subscription-Token", JStr "key") ]
               [ ("q", JStr "rocq"); ("count", JNum 5%float);
                 ("text_decorations", JBool false);
                 ("text_format", JStr "plain") ])
            _).
  left. reflexivity.
Defined.

(** The rendering of an array that is not empty opens with a bracket. *)
Lemma stringify_array_opens (item : JsVal) (items : list JsVal) :
  exists rest,
    JSON_stringify (JArr (item :: items)) 2 = String "["%char rest.
Proof.
  unfold JSON_stringify. cbn [Nat.min spaces serialize].
  cbn [String.eqb Ascii.eqb Bool.eqb]. cbv iota.
  rewrite append_cons. eauto.
Qed.

(** X15. The text [No results found.] marks an empty answer and nothing
    else: for a search that reaches the backing service and gets a
    response, the text returned is that literal exactly when the
    response holds no result. *)
Theorem no_results_text_means_no_results
    (key : string) (w : World) (request : CallToolRequest)
    (query : string) (count : JsVal) (data : BraveSearchResponse) :
  name request = "search" ->
  SearchServer.query_of request = Some query ->
  SearchServer.count_of request = Some count ->
  query <> "" ->
  (forall headers params,
     axios_get w SearchServer.BRAVE_SEARCH_URL headers params = inr data) ->
  outcome (invoke Search key w request)
  = Returned (text_result "No results found.")
  <-> SearchServer.web_results data = [].
Proof.
  intros Hname Hquery Hcount Hne Hworld. simpl.
  rewrite (search_enters_block key w request query count
             Hname Hquery Hcount Hne).
  unfold SearchServer.guarded. rewrite Hworld. cbv [bind perform].
  split.
  - intros H. destruct (SearchServer.web_results data) as [|r l] eqn:Hres;
      [reflexivity|]. exfalso.
    assert (Hnil : SearchServer.web_results data <> []) by congruence.
    destruct (results_length_positive data Hnil) as [n Hn].
    rewrite Hn in H. simpl map in H.
    destruct (stringify_array_opens (SearchServer.reshape r)
                (map SearchServer.reshape l)) as [rest Hrest].
    simpl in H. rewrite Hrest in H. discriminate H.
  - intros Hres.
    now destruct (results_length_zero data Hres) as [-> | ->].
Qed.

Lemma no_results_text_means_no_results_witness :
  outcome (invoke Search "key"
             (answering (mkBraveResponse (Some (mkBraveWeb None)))
                listing one_match sample_mr sample_diffs)
             (mkRequest "search" (Some [ ("query", JStr "rocq") ])))
  = Returned (text_result "No results found.").
Proof.
  refine (proj2 (no_results_text_means_no_results "key"
                   (answering (mkBraveResponse (Some (mkBraveWeb None)))
                      listing one_match sample_mr sample_diffs)
                   (mkRequest "search" (Some [ ("query", JStr "rocq") ]))
                   "rocq" (JNum 5%float)
                   (mkBraveResponse (Some (mkBraveWeb None)))
                   eq_refl eq_refl eq_refl _ _) eq_refl).
  - discriminate.
  - reflexivity.
Defined.

(** ** The key of the search service *)

(** X10. A search process that serves requests was started with a
    key that is not empty, and every outbound call it issues carries
    exactly that key in its [X-Subscription-Token] header. *)
Theorem served_search_carries_key
    (env : gmap string string) (w : World) (request : CallToolRequest)
    (m : M CallToolResult) (c : Call) :
  serve Search env w request = Some m ->
  In c (calls m) ->
  exists k,
    env !! "BRAVE_API_KEY" = Some k /\ k <> ""
    /\ subscription_token c = Some (JStr k).
Proof.
  unfold serve. simpl. unfold SearchServer.boot, SearchServer.API_KEY.
  destruct (env !! "BRAVE_API_KEY") as [k|] eqn:Hkey; [|discriminate].
  simpl. destruct (String.eqb_spec k "") as [-> | Hk]; [discriminate|].
  simpl. intros [= <-].
  change (SearchServer.CallTool k w request) with (invoke Search k w request).
  rewrite search_calls.
  destruct (SearchServer.query_of request) as [query|]; [|intros []].
  destruct (SearchServer.count_of request) as [count|]; [|intros []].
  destruct (String.eqb (name request) "search" && truthy (JStr query));
    [|intros []].
  intros [<- | []]. exists k. auto.
Qed.

Lemma served_search_carries_key_witness :
  exists k,
    (<["BRAVE_API_KEY" := "BSA-1"]> (∅ : gmap string string)) !! "BRAVE_API_KEY"
    = Some k
    /\ k <> ""
    /\ Some (JStr "BSA-1") = Some (JStr k).
Proof.
  refine (served_search_carries_key
            (<["BRAVE_API_KEY" := "BSA-1"]> ∅) services
            (mkRequest "search" (Some [ ("query", JStr "rocq") ]))
            _
            (AxiosGet SearchServer.BRAVE_SEARCH_URL
               [ ("X-Subscription-Token", JStr "BSA-1") ]
               [ ("q", JStr "rocq"); ("count", JNum 5%float);
                 ("text_decorations", JBool false);
                 ("text_format", JStr "plain") ])
            eq_refl _).
  left. reflexivity.
Defined.

(** ** Schemas and handlers *)

(** A name test that holds, as the name. *)
Ltac name_is H :=
  apply String.eqb_eq in H; subst.

(** X11. A handler reads only the arguments its schema declares: two
    requests for the same tool whose argument bags agree on every
    declared property get the same calls and the same answer, whatever
    else the bags hold. *)
Theorem undeclared_arguments_are_ignored
    (a : Adapter) (key : string) (w : World) (n : string)
    (args args' : JsObject) :
  (forall p, In p (declared_properties a n) -> get p args' = get p args) ->
  invoke a key w (mkRequest n (Some args'))
  = invoke a key w (mkRequest n (Some args)).
Proof.
  unfold declared_properties, find_tool. intros H. destruct a; simpl in *.
  - unfold SearchServer.CallTool, SearchServer.query_of, SearchServer.count_of.
    cbn [name arguments get_opt].
    destruct (String.eqb n "search"); [|reflexivity].
    simpl in H.
    now rewrite (H "query"), (H "count") by auto.
  - unfold GitHubServer.CallTool, GitHubServer.guarded, GitHubServer.read_file,
      GitHubServer.search_code_tool, GitHubServer.list_repository_content,
      GitHubServer.destructure.
    cbn [name arguments].
    destruct (String.eqb n "read_file").
    { simpl in H.
      now rewrite (H "owner"), (H "repo"), (H "path"), (H "ref") by auto. }
    destruct (String.eqb n "search_code").
    { simpl in H.
      now rewrite (H "query"), (H "language"), (H "owner"), (H "repo") by auto 6. }
    destruct (String.eqb n "list_repository_content"); [|reflexivity].
    simpl in H.
    now rewrite (H "owner"), (H "repo"), (H "path"), (H "ref") by auto.
  - unfold GitLabServer.CallTool, GitLabServer.guarded,
      GitLabServer.validateGetMergeRequestContentArgs.
    cbn [name arguments member].
    destruct (String.eqb n "get_merge_request_content"); [|reflexivity].
    simpl in H.
    now rewrite (H "project_id"), (H "merge_request_iid") by auto.
Qed.

Lemma undeclared_arguments_are_ignored_witness :
  invoke GitLab "" services
    (mkRequest "get_merge_request_content"
       (Some [ ("verbose", JBool true); ("project_id", JStr "group/app");
               ("merge_request_iid", JNum 7%float) ]))
  = invoke GitLab "" services
      (mkRequest "get_merge_request_content"
         (Some [ ("project_id", JStr "group/app");
                 ("merge_request_iid", JNum 7%float) ])).
Proof.
  refine (undeclared_arguments_are_ignored GitLab "" services
            "get_merge_request_content" _ _ _).
  intros p [<- | [<- | []]]; reflexivity.
Defined.

(** X12. The defaults the schemas declare are the ones the handlers
    apply: for every property with a declared default ([count] of the
    search tool, [ref] of [read_file], [path] and [ref] of
    [list_repository_content]), leaving the argument out gives the same
    calls and the same answer as passing the declared default. *)
Theorem omitted_argument_takes_declared_default
    (a : Adapter) (key : string) (w : World) (n p : string) (d : JsVal)
    (args : JsObject) :
  declared_default a n p = Some d ->
  get p args = JUndefined ->
  invoke a key w (mkRequest n (Some args))
  = invoke a key w (mkRequest n (Some ((p, d) :: args))).
Proof.
  unfold declared_default, find_tool. intros Hd Hp. destruct a; simpl in Hd.
  - destruct (String.eqb n "search") eqn:Hn; [|discriminate]. name_is Hn.
    simpl in Hd.
    destruct (String.eqb p "query"); [discriminate|].
    destruct (String.eqb p "count") eqn:Hc; [|discriminate]. name_is Hc.
    injection Hd as <-.
    simpl. unfold SearchServer.CallTool, SearchServer.query_of,
      SearchServer.count_of.
    cbn [name arguments get_opt get String.eqb Ascii.eqb Bool.eqb].
    rewrite Hp. reflexivity.
  - destruct (String.eqb n "read_file") eqn:Hn.
    { name_is Hn. simpl in Hd.
      destruct (String.eqb p "owner"); [discriminate|].
      destruct (String.eqb p "repo"); [discriminate|].
      destruct (String.eqb p "path"); [discriminate|].
      destruct (String.eqb p "ref") eqn:Hr; [|discriminate]. name_is Hr.
      injection Hd as <-.
      simpl. unfold GitHubServer.CallTool, GitHubServer.guarded,
        GitHubServer.read_file, GitHubServer.destructure.
      cbn [name arguments get String.eqb Ascii.eqb Bool.eqb].
      rewrite Hp. reflexivity. }
    destruct (String.eqb n "search_code") eqn:Hs.
    { name_is Hs. simpl in Hd.
      destruct (String.eqb p "query"); [discriminate|].
      destruct (String.eqb p "language"); [discriminate|].
      destruct (String.eqb p "owner"); [discriminate|].
      destruct (String.eqb p "repo"); discriminate. }
    destruct (String.eqb n "list_repository_content") eqn:Hl; [|discriminate].
    name_is Hl. simpl in Hd.
    destruct (String.eqb p "owner"); [discriminate|].
    destruct (String.eqb p "repo"); [discriminate|].
    destruct (String.eqb p "path") eqn:Hpath.
    { name_is Hpath. injection Hd as <-.
      simpl. unfold GitHubServer.CallTool, GitHubServer.guarded,
        GitHubServer.list_repository_content, GitHubServer.destructure.
      cbn [name arguments get String.eqb Ascii.eqb Bool.eqb].
      rewrite Hp. reflexivity. }
    destruct (String.eqb p "ref") eqn:Hr; [|discriminate]. name_is Hr.
    injection Hd as <-.
    simpl. unfold GitHubServer.CallTool, GitHubServer.guarded,
      GitHubServer.list_repository_content, GitHubServer.destructure.
    cbn [name arguments get String.eqb Ascii.eqb Bool.eqb].
    rewrite Hp. reflexivity.
  - destruct (String.eqb n "get_merge_request_content") eqn:Hn; [|discriminate].
    simpl in Hd.
    destruct (String.eqb p "project_id"); [discriminate|].
    destruct (String.eqb p "merge_request_iid"); discriminate.
Qed.

Lemma omitted_argument_takes_declared_default_witness :
  invoke GitHub "" services
    (mkRequest "read_file"
       (Some [ ("owner", JStr "vupham90"); ("repo", JStr "mcp");
               ("path", JStr "README.md") ]))
  = invoke GitHub "" services
      (mkRequest "read_file"
         (Some [ ("ref", JStr "main"); ("owner", JStr "vupham90");
                 ("repo", JStr "mcp"); ("path", JStr "README.md") ])).
Proof.
  exact (omitted_argument_takes_declared_default GitHub "" services
           "read_file" "ref" (JStr "main")
           [ ("owner", JStr "vupham90"); ("repo", JStr "mcp");
             ("path", JStr "README.md") ]
           eq_refl eq_refl).
Defined.

(** X13. A tool the adapter lists is never answered as unknown: when
    the name is in the registry, the dispatcher does not fail with
    MethodNotFound before it has issued a call. *)
Theorem registered_tool_is_dispatched
    (a : Adapter) (key : string) (w : World) (request : CallToolRequest)
    (m : string) :
  registered a (name request) = true ->
  invoke a key w request <> ([], Threw (McpError MethodNotFound m)).
Proof.
  unfold registered. intros Hreg. destruct a; simpl in Hreg;
    rewrite orb_false_r in Hreg.
  - intros E. pose proof (search_calls key w request) as Hcalls.
    rewrite E, Hreg in Hcalls. cbn [invoke] in E.
    rewrite search_call_cases, Hreg in E. cbn [negb] in E.
    destruct (SearchServer.query_of request) as [query|];
      [|discriminate E].
    destruct (SearchServer.count_of request) as [count|];
      [|discriminate E].
    destruct (truthy (JStr query)); [discriminate Hcalls | discriminate E].
  - destruct (arguments request) as [args|] eqn:Hargs.
    + pose proof (github_unchecked_call w request args Hargs) as Hc.
      destruct (unchecked_call (name request) args) as [c|].
      * intros E. cbn [invoke] in E. rewrite E in Hc.
        discriminate Hc. unfold registered. simpl. now rewrite orb_false_r.
      * cbn [invoke]. rewrite Hc; [intros [=]|].
        unfold registered. simpl. now rewrite orb_false_r.
    + destruct (github_absent_bag w request Hargs) as [m' Hm].
      { unfold registered. simpl. now rewrite orb_false_r. }
      simpl. rewrite Hm. intros [=].
  - simpl. unfold GitLabServer.CallTool, GitLabServer.guarded.
    destruct (arguments request) as [args|]; [|intros [=]].
    rewrite Hreg.
    unfold GitLabServer.validateGetMergeRequestContentArgs.
    cbn [typeof member negb orb String.eqb Ascii.eqb Bool.eqb].
    destruct (String.eqb (typeof (get "project_id" args)) "string");
      [|intros [=]].
    destruct (String.eqb (typeof (get "merge_request_iid" args)) "number");
      [|intros [=]].
    cbv [bind perform ret try_catch].
    destruct (MergeRequests_show w _ _); simpl.
    + unfold GitLabServer.on_error.
      destruct (is_McpError t); simpl; intros [=].
    + destruct (MergeRequests_allDiffs w _ _); simpl; [|intros [=]].
      unfold GitLabServer.on_error.
      destruct (is_McpError t); simpl; intros [=].
Qed.

Lemma registered_tool_is_dispatched_witness :
  invoke GitHub "" offline (mkRequest "read_file" None)
  <> ([], Threw (McpError MethodNotFound "Unknown tool: read_file")).
Proof.
  exact (registered_tool_is_dispatched GitHub "" offline
           (mkRequest "read_file" None) "Unknown tool: read_file" eq_refl).
Defined.

(** ** Code search *)

(** X14. The code search is restricted to a repository or a user only
    through [owner]: when no owner is supplied (or an empty one), a
    [repo] argument changes neither the calls nor the answer. The query
    is then sent as it is when no language is supplied, and as its
    string form followed by the language qualifier otherwise, in one call
    that asks for a page of 10; when the language or the query cannot be
    converted to a string, no call is issued and the answer is
    InternalError. *)
Theorem search_scope_needs_owner
    (key : string) (w : World) (args : JsObject) (repo : JsVal) :
  truthy (get "owner" args) = false ->
  let request := mkRequest "search_code" (Some (("repo", repo) :: args)) in
  invoke GitHub key w request
  = invoke GitHub key w
      (mkRequest "search_code" (Some (("repo", JUndefined) :: args)))
  /\
  if truthy (get "language" args) then
    match ToString (get "query" args), ToString (get "language" args) with
    | Some q, Some l =>
        calls (invoke GitHub key w request)
        = [ SearchCode (JStr (q +:+ " language:" +:+ l)) (JNum 10%float) ]
    | _, _ =>
        invoke GitHub key w request
        = ([], Threw (McpError InternalError
             "GitHub API error: Cannot convert object to primitive value"))
    end
  else
    calls (invoke GitHub key w request)
    = [ SearchCode (get "query" args) (JNum 10%float) ].
Proof.
  intros Howner. cbv zeta. cbn [invoke].
  unfold GitHubServer.CallTool, GitHubServer.guarded,
    GitHubServer.search_code_tool, GitHubServer.destructure,
    GitHubServer.build_query.
  cbn [name arguments get String.eqb Ascii.eqb Bool.eqb].
  rewrite Howner. cbn [andb]. split; [reflexivity|].
  unfold GitHubServer.plus_assign, GitHubServer.template1, plus_string.
  destruct (truthy (get "language" args)).
  - destruct (ToString (get "language" args)) as [l|];
      [|now destruct (ToString (get "query" args))].
    destruct (ToString (get "query" args)) as [q|]; [|reflexivity].
    cbn [option_map convert]. rewrite bind_ret.
    cbv [bind perform try_catch calls fst ret].
    destruct (search_code w _ _) as [e | items]; simpl; [|reflexivity].
    unfold GitHubServer.on_error. now destruct (is_McpError e).
  - cbn [convert]. rewrite bind_ret.
    cbv [bind perform try_catch calls fst ret].
    destruct (search_code w _ _) as [e | items]; simpl; [|reflexivity].
    unfold GitHubServer.on_error. now destruct (is_McpError e).
Qed.

Lemma search_scope_needs_owner_witness :
  invoke GitHub "" services
    (mkRequest "search_code"
       (Some [ ("repo", JStr "mcp"); ("query", JStr "try_catch") ]))
  = invoke GitHub "" services
      (mkRequest "search_code"
         (Some [ ("repo", JUndefined); ("query", JStr "try_catch") ]))
  /\
  calls (invoke GitHub "" services
           (mkRequest "search_code"
              (Some [ ("repo", JStr "mcp"); ("query", JStr "try_catch") ])))
  = [ SearchCode (JStr "try_catch") (JNum 10%float) ]
  /\
  invoke GitHub "" services
    (mkRequest "search_code"
       (Some [ ("repo", JStr "mcp"); ("query", JStr "try_catch");
               ("language", JObj [ ("toString", JNum 1%float) ]) ]))
  = ([], Threw (McpError InternalError
       "GitHub API error: Cannot convert object to primitive value")).
Proof.
  split; [|split].
  - exact (proj1 (search_scope_needs_owner "" services
                    [ ("query", JStr "try_catch") ] (JStr "mcp") eq_refl)).
  - exact (proj2 (search_scope_needs_owner "" services
                    [ ("query", JStr "try_catch") ] (JStr "mcp") eq_refl)).
  - exact (proj2 (search_scope_needs_owner "" services
                    [ ("query", JStr "try_catch");
                      ("language", JObj [ ("toString", JNum 1%float) ]) ]
                    (JStr "mcp") eq_refl)).
Defined.

End CoverageProperties.
